(** * Docker Management CLI: the command executor, the resource operations
      and the menu session of [main.py], embedded in Rocq.

    The program talks to three things outside itself: the operator's
    terminal ([input], [print]), the operating system ([subprocess.run],
    [os.path.exists]) and Python's exception mechanism.  The embedding makes
    all three explicit: a state record holds the lines the operator still
    has to type, the chronological log of what happened on the terminal and
    at the process boundary, and the state of the outside world; a
    computation either returns a value or raises a Python exception, and
    keeps its state in both cases. *)

From Stdlib Require Import String Ascii NArith ZArith Bool List Lia.
Import ListNotations.
Open Scope list_scope.

(* ===================================================================== *)
(** * Python text *)
(* ===================================================================== *)

(** A Python [str] is a sequence of Unicode code points. *)
Definition char := N.
Definition str := list char.

(** String literals of the source are written as UTF-8 text and decoded into
    code points ([acc] holds the bits of a multi-byte character read so far,
    [need] the number of continuation bytes still expected). *)
Fixpoint utf8 (acc : N) (need : nat) (s : string) : str :=
  match s with
  | EmptyString => []
  | String a s' =>
      let b := N_of_ascii a in
      match need with
      | O =>
          if (b <? 128)%N then b :: utf8 0 0 s'
          else if (b <? 224)%N then utf8 (b - 192) 1 s'
          else if (b <? 240)%N then utf8 (b - 224) 2 s'
          else utf8 (b - 240) 3 s'
      | S O => (acc * 64 + (b - 128))%N :: utf8 0 0 s'
      | S n => utf8 (acc * 64 + (b - 128)) n s'
      end
  end.

Definition py (s : string) : str := utf8 0 0 s.

Definition nl : str := [10%N].   (* "\n" *)
Definition tab : str := [9%N].   (* "\t" *)

(** [str.isspace] on one character: the code points CPython classifies as
    whitespace. *)
Definition isspace (c : char) : bool :=
  ((9 <=? c) && (c <=? 13) || (28 <=? c) && (c <=? 32)
   || (c =? 133) || (c =? 160) || (c =? 5760)
   || (8192 <=? c) && (c <=? 8202)
   || (c =? 8232) || (c =? 8233) || (c =? 8239) || (c =? 8287)
   || (c =? 12288))%N.

Fixpoint lstrip (s : str) : str :=
  match s with
  | [] => []
  | c :: s' => if isspace c then lstrip s' else s
  end.

Definition rstrip (s : str) : str := rev (lstrip (rev s)).

(** [s.strip()] *)
Definition strip (s : str) : str := rstrip (lstrip s).

(** [s.lower()].  Exact on the ASCII range; a character outside it is kept
    as it is.  The program only ever compares the result with ["s"], and no
    character outside ASCII has a lower-case form that is ["s"]. *)
Definition lower_char (c : char) : char :=
  if ((65 <=? c) && (c <=? 90))%N then (c + 32)%N else c.

Definition lower (s : str) : str := map lower_char s.

(** [a == b] on strings. *)
Fixpoint eqb_str (a b : str) : bool :=
  match a, b with
  | [], [] => true
  | x :: a', y :: b' => (x =? y)%N && eqb_str a' b'
  | _, _ => false
  end.

(** Truth value of a string: non-empty. *)
Definition nonempty (s : str) : bool :=
  match s with [] => false | _ :: _ => true end.

(** Truth value of an [Optional[str]]: [None] and [""] are both false. *)
Definition truthy (r : option str) : bool :=
  match r with Some s => nonempty s | None => false end.

(** ["-" * n] *)
Definition times (s : str) (n : nat) : str := concat (repeat s n).

(** [s[:n]] *)
Definition upto (n : nat) (s : str) : str := firstn n s.

(* ===================================================================== *)
(** * The outside world, events and exceptions *)
(* ===================================================================== *)

(** What the operator does at an input wait: types a line (without its
    newline) or presses the interrupt key, which Python raises as
    [KeyboardInterrupt] out of [input].  An exhausted list is end of
    input. *)
Inductive Key :=
| Line (s : str)
| Interrupt.

(** A child process that ran to completion: its exit status, what it wrote
    on its two output streams, and how many of the operator's pending lines
    it read itself (the child inherits the terminal's input in both
    execution modes).  A child writes bytes.  [stdout_decodes] and
    [stderr_decodes] tell whether the bytes on a stream are text in the
    locale's encoding; when they are, [stdout] or [stderr] is that text as
    [text=True] hands it over (decoded, line ends translated), and when
    they are not the field means nothing. *)
Record Completed := {
  returncode : Z;
  stdout : str;
  stdout_decodes : bool;
  stderr : str;
  stderr_decodes : bool;
  consumed : nat
}.

(** Both streams are text: [text=True] can decode what was captured. *)
Definition decodable (c : Completed) : bool :=
  stdout_decodes c && stderr_decodes c.

(** Why the operating system could not start a program. *)
Inductive OSErrorKind :=
| FileNotFoundError
| PermissionError.

Inductive Outcome :=
| SpawnFailed (k : OSErrorKind)
| Exited (c : Completed).

(** The log.  [Printed s] is a [print(s)]; [Prompted s] is the prompt an
    [input(s)] writes; [Subprocess capture cmd o] is a call of [subprocess.run]
    on the argument vector [cmd], with captured output or on the terminal,
    and what came of it. *)
Inductive Event :=
| Printed (s : str)
| Prompted (s : str)
| Subprocess (capture : bool) (cmd : list str) (o : Outcome).

(** The Python exceptions the program can meet. *)
Inductive Exn :=
| CalledProcessError (code : Z) (output err : str)
| OSError (k : OSErrorKind)
| UnicodeDecodeError
| IndexError
| EOFError
| KeyboardInterrupt
| SystemExit (code : Z).

(** [isinstance(e, Exception)]: [KeyboardInterrupt] and [SystemExit] derive
    from [BaseException] only. *)
Definition is_Exception (e : Exn) : bool :=
  match e with
  | KeyboardInterrupt | SystemExit _ => false
  | _ => true
  end.

Inductive Res (A : Type) :=
| Ret (a : A)
| Raise (e : Exn).
Arguments Ret {A} a.
Arguments Raise {A} e.

(** The program's surroundings at one moment: the keys the operator has
    still to press, the log so far, and the state of the operating system
    (of type [World]). *)
Record State (World : Type) := {
  stdin : list Key;
  events : list Event;
  world : World
}.
Arguments stdin {World} s.
Arguments events {World} s.
Arguments world {World} s.

(* ===================================================================== *)
(** * Sample worlds *)
(* ===================================================================== *)

(** Small worlds on which the model is evaluated: a machine where the
    engine binary is installed or not, where every child behaves as [c],
    and where every path exists or none does. *)
Definition toy_lookup (installed : bool) (w : unit) (prog : str)
  : option OSErrorKind :=
  if installed && eqb_str prog (py "docker") then None
  else Some FileNotFoundError.

Definition toy_child (c : Completed) (w : unit) (capture : bool)
  (cmd : list str) : Completed * unit := (c, w).

Definition toy_exists (b : bool) (w : unit) (p : str) : bool := b.

(** [str(e)] on the sample machine, where the one program ever started is
    [docker] and the locale's encoding is UTF-8. *)
Definition toy_describe (e : Exn) : str :=
  match e with
  | OSError FileNotFoundError =>
      py "[Errno 2] No such file or directory: 'docker'"
  | OSError PermissionError => py "[Errno 13] Permission denied: 'docker'"
  | UnicodeDecodeError =>
      py "'utf-8' codec can't decode byte 0xff in position 0: invalid start byte"
  | EOFError => py "EOF when reading a line"
  | IndexError => py "list index out of range"
  | _ => []
  end.

(** The operator is about to press [keys]; nothing has happened yet. *)
Definition typing (keys : list Key) : State unit :=
  {| stdin := keys; events := []; world := tt |}.

(** A child that succeeds and prints a padded one-line table. *)
Definition listing : Completed :=
  {| returncode := 0;
     stdout := py " ID  " ++ nl; stdout_decodes := true;
     stderr := []; stderr_decodes := true;
     consumed := 0 |}.

(** A child that fails with a diagnostic. *)
Definition failing : Completed :=
  {| returncode := 1;
     stdout := []; stdout_decodes := true;
     stderr := py "No such container" ++ nl; stderr_decodes := true;
     consumed := 0 |}.

(** A child that succeeds and prints a long identifier. *)
Definition started : Completed :=
  {| returncode := 0;
     stdout := py "4f9a2c7d81b35e60aa17c3d2" ++ nl; stdout_decodes := true;
     stderr := []; stderr_decodes := true;
     consumed := 0 |}.

(** A child that succeeds without printing anything but a newline. *)
Definition silent : Completed :=
  {| returncode := 0;
     stdout := nl; stdout_decodes := true;
     stderr := []; stderr_decodes := true;
     consumed := 0 |}.

(** A child that fails and complains on stderr in bytes that are not text
    in the locale's encoding. *)
Definition garbled : Completed :=
  {| returncode := 1;
     stdout := []; stdout_decodes := true;
     stderr := []; stderr_decodes := false;
     consumed := 0 |}.

(** A child that succeeds and prints nothing but a newline, with a warning
    on stderr in bytes that are not text. *)
Definition muttering : Completed :=
  {| returncode := 0;
     stdout := nl; stdout_decodes := true;
     stderr := []; stderr_decodes := false;
     consumed := 0 |}.

Section Engine.

(** The operating system: its state, whether a program name can be started,
    what a started child does (depending on whether its output is captured)
    and which paths exist.  [describe] is Python's [str(e)]. *)
Variable World : Type.
Variable lookup : World -> str -> option OSErrorKind.
Variable child : World -> bool -> list str -> Completed * World.
Variable path_exists : World -> str -> bool.
Variable describe : Exn -> str.

Local Abbreviation St := (State World).

Definition M (A : Type) : Type := St -> Res A * St.

Definition ret {A} (a : A) : M A := fun st => (Ret a, st).


Definition bind {A B} (m : M A) (f : A -> M B) : M B :=
  fun st =>
    match m st with
    | (Ret a, st') => f a st'
    | (Raise e, st') => (Raise e, st')
    end.

(** [try: m  except <the exceptions h answers>: h e] *)
Definition try_except {A} (m : M A) (h : Exn -> option (M A)) : M A :=
  fun st =>
    match m st with
    | (Ret a, st') => (Ret a, st')
    | (Raise e, st') =>
        match h e with
        | Some k => k st'
        | None => (Raise e, st')
        end
    end.

Notation "x <- m ;; k" := (bind m (fun x => k))
  (at level 61, m at next level, right associativity).
Notation "m ;; k" := (bind m (fun _ => k))
  (at level 61, right associativity).

Definition log (e : Event) (st : St) : St :=
  {| stdin := stdin st; events := events st ++ [e]; world := world st |}.

(** [print(s)] *)
Definition print (s : str) : M unit := fun st => (Ret tt, log (Printed s) st).

(** [input(prompt)] *)
Definition input (prompt : str) : M str :=
  fun st =>
    match stdin st with
    | [] => (Raise EOFError, log (Prompted prompt) st)
    | Line s :: rest =>
        (Ret s, {| stdin := rest;
                   events := events st ++ [Prompted prompt];
                   world := world st |})
    | Interrupt :: rest =>
        (Raise KeyboardInterrupt,
         {| stdin := rest;
            events := events st ++ [Prompted prompt];
            world := world st |})
    end.

(** [os.path.exists(p)] *)
Definition os_path_exists (p : str) : M bool :=
  fun st => (Ret (path_exists (world st) p), st).

(** [subprocess.run(cmd, capture_output=capture, text=True, check=check)].
    An empty argument vector has no program to start; a program that cannot
    be started raises the operating system's error and no child ever runs;
    otherwise the child runs to completion.  Captured output is then
    decoded, and bytes that are not text raise [UnicodeDecodeError] before
    the exit status is looked at; output left on the terminal is not
    decoded.  Last, [check] turns a non-zero exit status into
    [CalledProcessError]. *)
Definition subprocess_run (cmd : list str) (capture check : bool)
  : M Completed :=
  fun st =>
    match cmd with
    | [] => (Raise IndexError, st)
    | prog :: _ =>
        match lookup (world st) prog with
        | Some k =>
            (Raise (OSError k), log (Subprocess capture cmd (SpawnFailed k)) st)
        | None =>
            let (c, w') := child (world st) capture cmd in
            let st' := {| stdin := skipn (consumed c) (stdin st);
                          events := events st ++ [Subprocess capture cmd (Exited c)];
                          world := w' |} in
            if capture && negb (decodable c)
            then (Raise UnicodeDecodeError, st')
            else if check && negb (returncode c =? 0)%Z
            then (Raise (CalledProcessError (returncode c) (stdout c) (stderr c)), st')
            else (Ret c, st')
        end
    end.

(* ===================================================================== *)
(** * class DockerManager *)
(* ===================================================================== *)

Definition docker : str := py "docker".

(** [DockerManager.run_command] *)
Definition run_command (command : list str) : M (option str) :=
  try_except
    (result <- subprocess_run command true true ;;
     ret (Some (strip (stdout result))))
    (fun e =>
       match e with
       | CalledProcessError _ _ err =>
           Some (print (py "❌ Error ejecutando comando: " ++ strip err) ;;
                 ret None)
       | _ => None
       end).

(** [DockerManager.run_command_interactive] *)
Definition run_command_interactive (command : list str) : M bool :=
  try_except
    (result <- subprocess_run command false true ;;
     ret (returncode result =? 0)%Z)
    (fun e =>
       match e with
       | CalledProcessError _ _ _ => Some (ret false)
       | _ => None
       end).



(* ===================================================================== *)
(** * class ImageManager *)
(* ===================================================================== *)

(** The value of a result that passed its truth test. *)
Definition text_of (r : option str) : str :=
  match r with Some s => s | None => [] end.

(** [l.insert(i, x)] *)
Definition list_insert {A} (i : nat) (x : A) (l : list A) : list A :=
  firstn i l ++ x :: skipn i l.

Definition images_format : str :=
  py "table {{.Repository}}" ++ tab ++ py "{{.Tag}}" ++ tab ++ py "{{.ID}}"
  ++ tab ++ py "{{.Size}}" ++ tab ++ py "{{.CreatedSince}}".

(** [ImageManager.list_images] *)
Definition list_images : M unit :=
  print (nl ++ py "📦 IMÁGENES DOCKER DISPONIBLES:") ;;
  print (times (py "-") 80) ;;
  result <- run_command [docker; py "images"; py "--format"; images_format] ;;
  if truthy result
  then print (text_of result)
  else print (py "No se pudieron listar las imágenes").

(** [ImageManager.pull_image] *)
Definition pull_image : M unit :=
  print (nl ++ py "⬇️ DESCARGAR IMAGEN") ;;
  raw <- input (py "Ingresa el nombre de la imagen (ej: nginx:latest): ") ;;
  let image_name := strip raw in
  if negb (nonempty image_name)
  then print (py "❌ Nombre de imagen no puede estar vacío")
  else
    print (py "Descargando imagen: " ++ image_name ++ py "...") ;;
    ok <- run_command_interactive [docker; py "pull"; image_name] ;;
    if ok
    then print (py "✅ Imagen " ++ image_name ++ py " descargada exitosamente")
    else print (py "❌ Error al descargar la imagen " ++ image_name).

(** [ImageManager.remove_image] *)
Definition remove_image : M unit :=
  list_images ;;
  print (nl ++ py "🗑️ ELIMINAR IMAGEN") ;;
  raw <- input (py "Ingresa el ID o nombre de la imagen a eliminar: ") ;;
  let image_id := strip raw in
  if negb (nonempty image_id)
  then print (py "❌ ID de imagen no puede estar vacío")
  else
    answer <- input (py "¿Estás seguro de eliminar la imagen " ++ image_id
                     ++ py "? (s/N): ") ;;
    let confirm := lower (strip answer) in
    if eqb_str confirm (py "s")
    then
      result <- run_command [docker; py "rmi"; image_id] ;;
      if truthy result
      then print (py "✅ Imagen " ++ image_id ++ py " eliminada exitosamente")
      else print (py "❌ Error al eliminar la imagen " ++ image_id)
    else ret tt.

(** [ImageManager.build_image] *)
Definition build_image : M unit :=
  print (nl ++ py "🔨 CONSTRUIR IMAGEN") ;;
  raw_path <- input (py "Ruta del directorio con Dockerfile (. para actual): ") ;;
  let dockerfile_path :=
    if nonempty (strip raw_path) then strip raw_path else py "." in
  raw <- input (py "Nombre para la nueva imagen: ") ;;
  let image_name := strip raw in
  if negb (nonempty image_name)
  then print (py "❌ Nombre de imagen no puede estar vacío")
  else
    found <- os_path_exists (dockerfile_path ++ py "/Dockerfile") ;;
    if negb found
    then print (py "❌ No se encontró Dockerfile en " ++ dockerfile_path)
    else
      print (py "Construyendo imagen " ++ image_name ++ py "...") ;;
      ok <- run_command_interactive
              [docker; py "build"; py "-t"; image_name; dockerfile_path] ;;
      if ok
      then print (py "✅ Imagen " ++ image_name ++ py " construida exitosamente")
      else print (py "❌ Error al construir la imagen " ++ image_name).

(* ===================================================================== *)
(** * class ContainerManager *)
(* ===================================================================== *)

Definition containers_format : str :=
  py "table {{.ID}}" ++ tab ++ py "{{.Names}}" ++ tab ++ py "{{.Image}}"
  ++ tab ++ py "{{.Status}}" ++ tab ++ py "{{.Ports}}".

(** The argument vector [list_containers] builds. *)
Definition list_containers_cmd (all_containers : bool) : list str :=
  let cmd := [docker; py "ps"; py "--format"; containers_format] in
  if all_containers then list_insert 2 (py "-a") cmd else cmd.

(** [ContainerManager.list_containers] *)
Definition list_containers (all_containers : bool) : M unit :=
  let status := if all_containers
                then py "TODOS LOS CONTENEDORES"
                else py "CONTENEDORES ACTIVOS" in
  print (nl ++ py "🐳 " ++ status ++ py ":") ;;
  print (times (py "-") 100) ;;
  result <- run_command (list_containers_cmd all_containers) ;;
  if truthy result
  then print (text_of result)
  else print (py "No se pudieron listar los contenedores").

(** The argument vector [run_container] builds from its three fields
    (lines 154 to 162 of the source). *)
Definition run_container_cmd (image_name container_name port_mapping : str)
  : list str :=
  let cmd := [docker; py "run"; py "-d"] in
  let cmd := if nonempty container_name
             then cmd ++ [py "--name"; container_name] else cmd in
  let cmd := if nonempty port_mapping
             then cmd ++ [py "-p"; port_mapping] else cmd in
  cmd ++ [image_name].

(** [ContainerManager.run_container] *)
Definition run_container : M unit :=
  print (nl ++ py "🚀 EJECUTAR CONTENEDOR") ;;
  raw_image <- input (py "Nombre de la imagen: ") ;;
  let image_name := strip raw_image in
  raw_name <- input (py "Nombre del contenedor (opcional): ") ;;
  let container_name := strip raw_name in
  raw_port <- input (py "Mapeo de puertos (ej: 8080:80, opcional): ") ;;
  let port_mapping := strip raw_port in
  if negb (nonempty image_name)
  then print (py "❌ Nombre de imagen no puede estar vacío")
  else
    result <- run_command
                (run_container_cmd image_name container_name port_mapping) ;;
    if truthy result
    then print (py "✅ Contenedor iniciado con ID: " ++ upto 12 (text_of result))
    else print (py "❌ Error al iniciar el contenedor").

(** [ContainerManager.stop_container] *)
Definition stop_container : M unit :=
  list_containers true ;;
  print (nl ++ py "⏹️ DETENER CONTENEDOR") ;;
  raw <- input (py "ID o nombre del contenedor a detener: ") ;;
  let container_id := strip raw in
  if negb (nonempty container_id)
  then print (py "❌ ID de contenedor no puede estar vacío")
  else
    result <- run_command [docker; py "stop"; container_id] ;;
    if truthy result
    then print (py "✅ Contenedor " ++ container_id ++ py " detenido")
    else print (py "❌ Error al detener el contenedor " ++ container_id).

(** [ContainerManager.start_container] *)
Definition start_container : M unit :=
  list_containers true ;;
  print (nl ++ py "▶️ INICIAR CONTENEDOR") ;;
  raw <- input (py "ID o nombre del contenedor a iniciar: ") ;;
  let container_id := strip raw in
  if negb (nonempty container_id)
  then print (py "❌ ID de contenedor no puede estar vacío")
  else
    result <- run_command [docker; py "start"; container_id] ;;
    if truthy result
    then print (py "✅ Contenedor " ++ container_id ++ py " iniciado")
    else print (py "❌ Error al iniciar el contenedor " ++ container_id).

(** [ContainerManager.restart_container] *)
Definition restart_container : M unit :=
  list_containers true ;;
  print (nl ++ py "🔄 REINICIAR CONTENEDOR") ;;
  raw <- input (py "ID o nombre del contenedor a reiniciar: ") ;;
  let container_id := strip raw in
  if negb (nonempty container_id)
  then print (py "❌ ID de contenedor no puede estar vacío")
  else
    result <- run_command [docker; py "restart"; container_id] ;;
    if truthy result
    then print (py "✅ Contenedor " ++ container_id ++ py " reiniciado")
    else print (py "❌ Error al reiniciar el contenedor " ++ container_id).

(** [ContainerManager.remove_container] *)
Definition remove_container : M unit :=
  list_containers true ;;
  print (nl ++ py "🗑️ ELIMINAR CONTENEDOR") ;;
  raw <- input (py "ID o nombre del contenedor a eliminar: ") ;;
  let container_id := strip raw in
  if negb (nonempty container_id)
  then print (py "❌ ID de contenedor no puede estar vacío")
  else
    answer <- input (py "¿Estás seguro de eliminar el contenedor "
                     ++ container_id ++ py "? (s/N): ") ;;
    let confirm := lower (strip answer) in
    if eqb_str confirm (py "s")
    then
      result <- run_command [docker; py "rm"; py "-f"; container_id] ;;
      if truthy result
      then print (py "✅ Contenedor " ++ container_id ++ py " eliminado")
      else print (py "❌ Error al eliminar el contenedor " ++ container_id)
    else ret tt.

(** [ContainerManager.view_logs] *)
Definition view_logs : M unit :=
  list_containers true ;;
  print (nl ++ py "📋 VER LOGS") ;;
  raw <- input (py "ID o nombre del contenedor: ") ;;
  let container_id := strip raw in
  if negb (nonempty container_id)
  then print (py "❌ ID de contenedor no puede estar vacío")
  else
    print (nl ++ py "📋 Logs del contenedor " ++ container_id ++ py ":") ;;
    print (times (py "-") 60) ;;
    _ <- run_command_interactive
           [docker; py "logs"; py "--tail"; py "50"; container_id] ;;
    ret tt.

(** [ContainerManager.exec_container] *)
Definition exec_container : M unit :=
  list_containers false ;;
  print (nl ++ py "💻 EJECUTAR COMANDO EN CONTENEDOR") ;;
  raw <- input (py "ID o nombre del contenedor: ") ;;
  let container_id := strip raw in
  if negb (nonempty container_id)
  then print (py "❌ ID de contenedor no puede estar vacío")
  else
    print (py "Iniciando shell interactivo en el contenedor...") ;;
    _ <- run_command_interactive
           [docker; py "exec"; py "-it"; container_id; py "/bin/bash"] ;;
    ret tt.

(* ===================================================================== *)
(** * class SystemManager *)
(* ===================================================================== *)

(** [SystemManager.system_info] *)
Definition system_info : M unit :=
  print (nl ++ py "🔧 INFORMACIÓN DEL SISTEMA DOCKER:") ;;
  print (times (py "-") 50) ;;
  _ <- run_command_interactive [docker; py "system"; py "info"] ;;
  ret tt.

(** [SystemManager.system_cleanup] *)
Definition system_cleanup : M unit :=
  print (nl ++ py "🧹 LIMPIEZA DEL SISTEMA") ;;
  print (py "Esto eliminará:") ;;
  print (py "- Contenedores detenidos") ;;
  print (py "- Redes no utilizadas") ;;
  print (py "- Imágenes sin referencia") ;;
  print (py "- Caché de construcción") ;;
  answer <- input (nl ++ py "¿Continuar con la limpieza? (s/N): ") ;;
  let confirm := lower (strip answer) in
  if eqb_str confirm (py "s")
  then
    ok <- run_command_interactive
            [docker; py "system"; py "prune"; py "-a"; py "-f"] ;;
    if ok
    then print (py "✅ Limpieza completada")
    else print (py "❌ Error durante la limpieza")
  else ret tt.

(** [SystemManager.disk_usage] *)
Definition disk_usage : M unit :=
  print (nl ++ py "💾 USO DE DISCO DOCKER:") ;;
  print (times (py "-") 40) ;;
  _ <- run_command_interactive [docker; py "system"; py "df"] ;;
  ret tt.

(** The resource operations the menus dispatch to. *)
Inductive Operation :=
| ListImages | PullImage | BuildImage | RemoveImage
| ListContainers (all_containers : bool) | RunContainer | StartContainer
| StopContainer | RestartContainer | RemoveContainer | ViewLogs
| ExecContainer
| SystemInfo | DiskUsage | SystemCleanup.

Definition perform (op : Operation) : M unit :=
  match op with
  | ListImages => list_images
  | PullImage => pull_image
  | BuildImage => build_image
  | RemoveImage => remove_image
  | ListContainers all_containers => list_containers all_containers
  | RunContainer => run_container
  | StartContainer => start_container
  | StopContainer => stop_container
  | RestartContainer => restart_container
  | RemoveContainer => remove_container
  | ViewLogs => view_logs
  | ExecContainer => exec_container
  | SystemInfo => system_info
  | DiskUsage => disk_usage
  | SystemCleanup => system_cleanup
  end.

(* ===================================================================== *)
(** * class DockerCLI *)
(* ===================================================================== *)

(** [DockerCLI.show_header] *)
Definition show_header : M unit :=
  print (times (py "=") 60) ;;
  print (py "🐳 DOCKER MANAGEMENT CLI") ;;
  print (times (py "=") 60).

(** [DockerCLI.show_main_menu] *)
Definition show_main_menu : M unit :=
  print (nl ++ py "📋 MENÚ PRINCIPAL:") ;;
  print (py "1. 📦 Gestión de Imágenes") ;;
  print (py "2. 🐳 Gestión de Contenedores") ;;
  print (py "3. 🔧 Información del Sistema") ;;
  print (py "4. 🚪 Salir") ;;
  print (times (py "-") 30).

(** [DockerCLI.show_image_menu] *)
Definition show_image_menu : M unit :=
  print (nl ++ py "📦 GESTIÓN DE IMÁGENES:") ;;
  print (py "1. 📋 Listar todas las imágenes") ;;
  print (py "2. ⬇️ Descargar imagen") ;;
  print (py "3. 🔨 Construir imagen") ;;
  print (py "4. 🗑️ Eliminar imagen") ;;
  print (py "5. ⬅️ Volver al menú principal") ;;
  print (times (py "-") 35).

(** [DockerCLI.show_container_menu] *)
Definition show_container_menu : M unit :=
  print (nl ++ py "🐳 GESTIÓN DE CONTENEDORES:") ;;
  print (py "1. 📋 Listar contenedores activos") ;;
  print (py "2. 📋 Listar todos los contenedores") ;;
  print (py "3. 🚀 Ejecutar nuevo contenedor") ;;
  print (py "4. ▶️ Iniciar contenedor") ;;
  print (py "5. ⏹️ Detener contenedor") ;;
  print (py "6. 🔄 Reiniciar contenedor") ;;
  print (py "7. 🗑️ Eliminar contenedor") ;;
  print (py "8. 📄 Ver logs de contenedor") ;;
  print (py "9. 💻 Ejecutar comando en contenedor") ;;
  print (py "10. ⬅️ Volver al menú principal") ;;
  print (times (py "-") 40).

(** [DockerCLI.show_system_menu] *)
Definition show_system_menu : M unit :=
  print (nl ++ py "🔧 INFORMACIÓN DEL SISTEMA:") ;;
  print (py "1. 📊 Información del sistema Docker") ;;
  print (py "2. 💾 Uso de disco") ;;
  print (py "3. 🧹 Limpiar sistema") ;;
  print (py "4. ⬅️ Volver al menú principal") ;;
  print (times (py "-") 35).

(** The session's control states: which [while True] loop the program is
    in, or that it has left the outermost one. *)
Inductive Menu :=
| MainMenu
| ImageMenu
| ContainerMenu
| SystemMenu
| Exit.

(** How the dispatch of one selection leaves the loop body: it falls
    through to the pause at the end of the body, or it [break]s. *)
Inductive Flow :=
| Next
| Break.

Definition select_prompt : str := py "Selecciona una opción: ".
Definition invalid_option : str := py "❌ Opción inválida".
Definition continue_prompt : str := nl ++ py "Presiona Enter para continuar...".

(** One pass through the body of the loop of [handle_image_menu]. *)
Definition handle_image_menu : M Menu :=
  show_image_menu ;;
  raw <- input select_prompt ;;
  let choice := strip raw in
  flow <- (if eqb_str choice (py "1") then list_images ;; ret Next
           else if eqb_str choice (py "2") then pull_image ;; ret Next
           else if eqb_str choice (py "3") then build_image ;; ret Next
           else if eqb_str choice (py "4") then remove_image ;; ret Next
           else if eqb_str choice (py "5") then ret Break
           else print invalid_option ;; ret Next) ;;
  match flow with
  | Break => ret MainMenu
  | Next => _ <- input continue_prompt ;; ret ImageMenu
  end.

(** One pass through the body of the loop of [handle_container_menu]. *)
Definition handle_container_menu : M Menu :=
  show_container_menu ;;
  raw <- input select_prompt ;;
  let choice := strip raw in
  flow <- (if eqb_str choice (py "1") then list_containers false ;; ret Next
           else if eqb_str choice (py "2") then list_containers true ;; ret Next
           else if eqb_str choice (py "3") then run_container ;; ret Next
           else if eqb_str choice (py "4") then start_container ;; ret Next
           else if eqb_str choice (py "5") then stop_container ;; ret Next
           else if eqb_str choice (py "6") then restart_container ;; ret Next
           else if eqb_str choice (py "7") then remove_container ;; ret Next
           else if eqb_str choice (py "8") then view_logs ;; ret Next
           else if eqb_str choice (py "9") then exec_container ;; ret Next
           else if eqb_str choice (py "10") then ret Break
           else print invalid_option ;; ret Next) ;;
  match flow with
  | Break => ret MainMenu
  | Next => _ <- input continue_prompt ;; ret ContainerMenu
  end.

(** One pass through the body of the loop of [handle_system_menu]. *)
Definition handle_system_menu : M Menu :=
  show_system_menu ;;
  raw <- input select_prompt ;;
  let choice := strip raw in
  flow <- (if eqb_str choice (py "1") then system_info ;; ret Next
           else if eqb_str choice (py "2") then disk_usage ;; ret Next
           else if eqb_str choice (py "3") then system_cleanup ;; ret Next
           else if eqb_str choice (py "4") then ret Break
           else print invalid_option ;; ret Next) ;;
  match flow with
  | Break => ret MainMenu
  | Next => _ <- input continue_prompt ;; ret SystemMenu
  end.

(** One pass through the body of the loop of [run]: selecting a sub-menu
    enters that menu's loop, and the sub-menu's [break] comes back here. *)
Definition main_menu : M Menu :=
  show_header ;;
  show_main_menu ;;
  raw <- input select_prompt ;;
  let choice := strip raw in
  if eqb_str choice (py "1") then ret ImageMenu
  else if eqb_str choice (py "2") then ret ContainerMenu
  else if eqb_str choice (py "3") then ret SystemMenu
  else if eqb_str choice (py "4")
  then print (nl ++ py "👋 ¡Gracias por usar Docker Management CLI!") ;; ret Exit
  else print invalid_option ;; _ <- input continue_prompt ;; ret MainMenu.

(** The transition of the session out of one control state. *)
Definition iteration (m : Menu) : M Menu :=
  match m with
  | MainMenu => main_menu
  | ImageMenu => handle_image_menu
  | ContainerMenu => handle_container_menu
  | SystemMenu => handle_system_menu
  | Exit => ret Exit
  end.

(** The option codes a control state recognises. *)
Definition options (m : Menu) : list str :=
  match m with
  | MainMenu => [py "1"; py "2"; py "3"; py "4"]
  | ImageMenu => [py "1"; py "2"; py "3"; py "4"; py "5"]
  | ContainerMenu =>
      [py "1"; py "2"; py "3"; py "4"; py "5"; py "6"; py "7"; py "8";
       py "9"; py "10"]
  | SystemMenu => [py "1"; py "2"; py "3"; py "4"]
  | Exit => []
  end.

(** The nested loops, run for at most [fuel] passes; [None] when the fuel
    runs out before the session ends. *)
Fixpoint session (fuel : nat) (m : Menu) (st : St)
  : option (Res unit * St) :=
  match m with
  | Exit => Some (Ret tt, st)
  | _ =>
      match fuel with
      | O => None
      | S fuel' =>
          match iteration m st with
          | (Ret m', st') => session fuel' m' st'
          | (Raise e, st') => Some (Raise e, st')
          end
      end
  end.

(** [DockerCLI.run]: the loops inside the two [except] clauses. *)
Definition run (fuel : nat) (st : St) : option (Res unit * St) :=
  match session fuel MainMenu st with
  | None => None
  | Some (Ret tt, st') => Some (Ret tt, st')
  | Some (Raise e, st') =>
      match e with
      | KeyboardInterrupt =>
          Some (print (nl ++ nl ++ py "👋 Aplicación terminada por el usuario") st')
      | _ =>
          if is_Exception e
          then Some (print (nl ++ py "❌ Error inesperado: " ++ describe e) st')
          else Some (Raise e, st')
      end
  end.



(* ===================================================================== *)
(** * Vocabulary of the statements *)
(* ===================================================================== *)

(** The Confirmation Gate of the three destructive operations: the test
    [confirm == 's'] on the stripped, lower-cased answer. *)
Definition proceed (answer : str) : bool :=
  eqb_str (lower (strip answer)) (py "s").

(** The argument vectors handed to [subprocess.run] in a log, oldest
    first, each with its capture mode. *)
Fixpoint commands (evs : list Event) : list (bool * list str) :=
  match evs with
  | [] => []
  | Subprocess capture cmd _ :: evs' => (capture, cmd) :: commands evs'
  | _ :: evs' => commands evs'
  end.

(** [s.startswith(p)] *)
Fixpoint starts_with (p s : str) : bool :=
  match p, s with
  | [], _ => true
  | x :: p', y :: s' => (x =? y)%N && starts_with p' s'
  | _ :: _, [] => false
  end.

(** The lines with which an operation tells the operator that its engine
    call failed. *)
Definition failure_line (msg : str) : bool :=
  starts_with (py "❌ Error al ") msg
  || starts_with (py "No se pudieron listar ") msg.

(** The exception with which [check=True] reports a non-zero exit. *)
Definition engine_failure (e : Exn) : bool :=
  match e with
  | CalledProcessError _ _ _ => true
  | _ => false
  end.

(** A captured child that exited with status zero and printed text that
    is nothing but whitespace. *)
Definition silent_success (e : Event) : bool :=
  match e with
  | Subprocess true _ (Exited c) =>
      decodable c && (returncode c =? 0)%Z
      && negb (nonempty (strip (stdout c)))
  | _ => false
  end.

(** Every silent success in a log is followed at once by a failure line. *)
Fixpoint answered (evs : list Event) : bool :=
  match evs with
  | [] => true
  | e :: rest =>
      (if silent_success e
       then match rest with
            | Printed msg :: _ => failure_line msg
            | _ => false
            end
       else true)
      && answered rest
  end.

(** The log grows by [evs] from [st] to [st'], no non-zero exit is raised
    as an exception, and a program that could not be started always shows
    as the operating system's error in the result. *)
Definition faults_pass {A} (st : St) (r : Res A) (st' : St) : Prop :=
  exists evs,
    events st' = events st ++ evs
    /\ (forall e, r = Raise e -> engine_failure e = false)
    /\ (forall capture cmd k,
          In (Subprocess capture cmd (SpawnFailed k)) evs ->
          r = Raise (OSError k)).

(** The log grows from [st] to [st'] by events in which every silent
    success is answered. *)
Definition reports {A} (st : St) (r : Res A) (st' : St) : Prop :=
  exists evs, events st' = events st ++ evs /\ answered evs = true.

(** The operator's pending keys do not grow, and shrink when the
    computation returns. *)
Definition shrinks {A} (st : St) (r : Res A) (st' : St) : Prop :=
  length (stdin st') <= length (stdin st).

Definition consumes {A} (st : St) (r : Res A) (st' : St) : Prop :=
  match r with
  | Ret _ => length (stdin st') < length (stdin st)
  | Raise _ => length (stdin st') <= length (stdin st)
  end.

(** What a menu prints at the head of its loop body. *)
Definition render (m : Menu) : M unit :=
  match m with
  | MainMenu => show_header ;; show_main_menu
  | ImageMenu => show_image_menu
  | ContainerMenu => show_container_menu
  | SystemMenu => show_system_menu
  | Exit => ret tt
  end.

(** A computation that only prints: it returns, and leaves the keys, the
    world and the list of commands run as they were. *)
Definition prints_only (m : M unit) : Prop :=
  forall st,
    fst (m st) = Ret tt
    /\ stdin (snd (m st)) = stdin st
    /\ world (snd (m st)) = world st
    /\ commands (events (snd (m st))) = commands (events st).

(** [m] satisfies the relation [R] between the state it starts in, its
    result and the state it ends in. *)
Definition sat {A} (m : M A) (R : St -> Res A -> St -> Prop) : Prop :=
  forall st, R st (fst (m st)) (snd (m st)).

(** An operation that asks for a required field after [prelude] and turns
    an empty answer away: it prints [header], prompts, prints [message] and
    returns, and the world is as [prelude] left it. *)
Definition rejects (prelude op : M unit) (header prompt message : str)
  : Prop :=
  forall st st1 raw rest,
    prelude st = (Ret tt, st1) ->
    stdin st1 = Line raw :: rest ->
    strip raw = [] ->
    op st = (Ret tt,
             {| stdin := rest;
                events := events st1
                          ++ [Printed header; Prompted prompt; Printed message];
                world := world st1 |}).

(** ** Vocabulary of the further properties *)

(** [e] is caught by one of the two [except] clauses of [run]. *)
Definition catchable (e : Exn) : bool :=
  match e with
  | KeyboardInterrupt => true
  | _ => is_Exception e
  end.

(** Whatever is raised can be caught by [run]. *)
Definition caught_by_run {A} (st : St) (r : Res A) (st' : St) : Prop :=
  forall e, r = Raise e -> catchable e = true.

(** The three lines with which [run] can end. *)
Definition goodbye : str :=
  nl ++ py "👋 ¡Gracias por usar Docker Management CLI!".

Definition interrupted : str :=
  nl ++ nl ++ py "👋 Aplicación terminada por el usuario".

Definition unexpected (e : Exn) : str :=
  nl ++ py "❌ Error inesperado: " ++ describe e.

(** An argument vector whose program is the engine and none of whose
    tokens is the empty string. *)
Definition well_formed (cmd : list str) : bool :=
  match cmd with
  | [] => false
  | prog :: _ => eqb_str prog docker && forallb nonempty cmd
  end.

(** The log grows by calls that are all well formed, and [subprocess.run]
    has not been given an empty vector. *)
Definition calls_well_formed {A} (st : St) (r : Res A) (st' : St) : Prop :=
  exists evs,
    events st' = events st ++ evs
    /\ forallb (fun call => well_formed (snd call)) (commands evs) = true
    /\ r <> Raise IndexError.




(** The log only grows. *)
Definition grows {A} (st : St) (r : Res A) (st' : St) : Prop :=
  exists evs, events st' = events st ++ evs.

(** An operation on a container named by the operator that, after the
    listing, a non-empty identifier, and an engine call [cmd id] that exits
    with status zero and prints some text, prints the success line [ok id]
    and returns. *)
Definition succeeds (op : M unit) (header prompt : str)
  (cmd : str -> list str) (ok : str -> str) : Prop :=
  forall st st1 raw rest c w',
    list_containers true st = (Ret tt, st1) ->
    stdin st1 = Line raw :: rest ->
    nonempty (strip raw) = true ->
    lookup (world st1) docker = None ->
    child (world st1) true (cmd (strip raw)) = (c, w') ->
    decodable c = true ->
    returncode c = 0%Z ->
    nonempty (strip (stdout c)) = true ->
    op st =
      (Ret tt,
       {| stdin := skipn (consumed c) rest;
          events := events st1
                    ++ [Printed header; Prompted prompt;
                        Subprocess true (cmd (strip raw)) (Exited c);
                        Printed (ok (strip raw))];
          world := w' |}).

(** The same operation when the engine call exits with status zero and its
    output is blank: it prints the failure line [failed id] and returns. *)
Definition misreports (op : M unit) (header prompt : str)
  (cmd : str -> list str) (failed : str -> str) : Prop :=
  forall st st1 raw rest c w',
    list_containers true st = (Ret tt, st1) ->
    stdin st1 = Line raw :: rest ->
    nonempty (strip raw) = true ->
    lookup (world st1) docker = None ->
    child (world st1) true (cmd (strip raw)) = (c, w') ->
    decodable c = true ->
    returncode c = 0%Z ->
    strip (stdout c) = [] ->
    op st =
      (Ret tt,
       {| stdin := skipn (consumed c) rest;
          events := events st1
                    ++ [Printed header; Prompted prompt;
                        Subprocess true (cmd (strip raw)) (Exited c);
                        Printed (failed (strip raw))];
          world := w' |}).

(** The session after [n] passes through the loop bodies, when none of
    them raised: the menu it is in and the state it has reached. *)
Fixpoint passes (n : nat) (m : Menu) (st : St) : option (Menu * St) :=
  match n with
  | O => Some (m, st)
  | S n' =>
      match iteration m st with
      | (Ret m', st') => passes n' m' st'
      | (Raise _, _) => None
      end
  end.









(** The menus as tables.  [leaves m] pairs the option codes of menu [m]
    that perform an operation with that operation; [navigation m] pairs
    the codes that only change menu with the menu they lead to. *)
Definition leaves (m : Menu) : list (str * Operation) :=
  match m with
  | ImageMenu =>
      [(py "1", ListImages); (py "2", PullImage); (py "3", BuildImage);
       (py "4", RemoveImage)]
  | ContainerMenu =>
      [(py "1", ListContainers false); (py "2", ListContainers true);
       (py "3", RunContainer); (py "4", StartContainer);
       (py "5", StopContainer); (py "6", RestartContainer);
       (py "7", RemoveContainer); (py "8", ViewLogs);
       (py "9", ExecContainer)]
  | SystemMenu =>
      [(py "1", SystemInfo); (py "2", DiskUsage); (py "3", SystemCleanup)]
  | MainMenu | Exit => []
  end.

Definition navigation (m : Menu) : list (str * Menu) :=
  match m with
  | MainMenu =>
      [(py "1", ImageMenu); (py "2", ContainerMenu); (py "3", SystemMenu)]
  | ImageMenu => [(py "5", MainMenu)]
  | ContainerMenu => [(py "10", MainMenu)]
  | SystemMenu => [(py "4", MainMenu)]
  | Exit => []
  end.

(* ===================================================================== *)
(** * Running the model *)
(* ===================================================================== *)

Lemma bind_Ret {A B} (m : M A) (f : A -> M B) st a st' :
  m st = (Ret a, st') -> bind m f st = f a st'.
Proof. unfold bind. intros ->. reflexivity. Qed.

Lemma bind_Raise {A B} (m : M A) (f : A -> M B) st e st' :
  m st = (Raise e, st') -> bind m f st = (Raise e, st').
Proof. unfold bind. intros ->. reflexivity. Qed.

Lemma subprocess_run_started prog args capture check st c w' :
  lookup (world st) prog = None ->
  child (world st) capture (prog :: args) = (c, w') ->
  subprocess_run (prog :: args) capture check st =
    (if capture && negb (decodable c)
     then Raise UnicodeDecodeError
     else if check && negb (returncode c =? 0)%Z
     then Raise (CalledProcessError (returncode c) (stdout c) (stderr c))
     else Ret c,
     {| stdin := skipn (consumed c) (stdin st);
        events := events st ++ [Subprocess capture (prog :: args) (Exited c)];
        world := w' |}).
Proof.
  intros Hl Hc. unfold subprocess_run. rewrite Hl, Hc.
  destruct (capture && negb (decodable c)); [reflexivity |].
  destruct (check && negb (returncode c =? 0)%Z); reflexivity.
Qed.

Lemma subprocess_run_not_started prog args capture check st k :
  lookup (world st) prog = Some k ->
  subprocess_run (prog :: args) capture check st =
    (Raise (OSError k),
     log (Subprocess capture (prog :: args) (SpawnFailed k)) st).
Proof. intros Hl. unfold subprocess_run. rewrite Hl. reflexivity. Qed.

Lemma print_bind {B} s (k : unit -> M B) st :
  bind (print s) k st = k tt (log (Printed s) st).
Proof. reflexivity. Qed.

Lemma input_bind {B} p (k : str -> M B) st s rest :
  stdin st = Line s :: rest ->
  bind (input p) k st =
    k s {| stdin := rest;
           events := events st ++ [Prompted p];
           world := world st |}.
Proof. intros H. unfold bind, input. rewrite H. reflexivity. Qed.

Lemma exists_bind {B} p (k : bool -> M B) st :
  bind (os_path_exists p) k st = k (path_exists (world st) p) st.
Proof. reflexivity. Qed.

(** One statement of straight-line code: a [print], an [input] whose line
    is known (from [H] or from the state itself), or a path test. *)
Ltac step H :=
  first [ rewrite print_bind
        | rewrite exists_bind
        | erewrite input_bind
            by (cbn [stdin log]; first [exact H | reflexivity]) ];
  cbv zeta; cbn [stdin events world log].

Ltac steps H := repeat step H.

(** Unfolds everything down to the state; for code without engine calls. *)
Ltac exec :=
  repeat (progress (unfold bind, print, input, log, ret, os_path_exists;
                    cbv zeta;
                    cbn [stdin events world fst snd negb nonempty])).

Ltac typed H := exec; rewrite H; exec.

Ltac done := exec; rewrite <- ?app_assoc; reflexivity.

(** Finishes a run whose last event is a line printed under a test. *)
Ltac printed :=
  unfold print, ret, log; cbn [stdin events world];
  rewrite <- ?app_assoc; reflexivity.

Lemma eqb_str_eq a b : eqb_str a b = true <-> a = b.
Proof.
  revert b. induction a as [| x a IH]; intros [| y b]; cbn [eqb_str];
    try (split; [discriminate | discriminate]); [split; reflexivity |].
  rewrite andb_true_iff, N.eqb_eq, IH. split.
  - intros [-> ->]. reflexivity.
  - intros H. injection H as -> ->. auto.
Qed.

Lemma eqb_str_neq a b : a <> b -> eqb_str a b = false.
Proof.
  intros H. destruct (eqb_str a b) eqn:E; [| reflexivity].
  apply eqb_str_eq in E. contradiction.
Qed.

Lemma commands_app evs1 evs2 :
  commands (evs1 ++ evs2) = commands evs1 ++ commands evs2.
Proof.
  induction evs1 as [| [s | s | capture cmd o] evs1 IH]; cbn [commands app];
    rewrite ?IH; reflexivity.
Qed.

Lemma lstrip_split s :
  exists l, s = l ++ lstrip s /\ forallb isspace l = true.
Proof.
  induction s as [| c s (l & E & Hl)]; [exists []; auto |].
  cbn [lstrip]. destruct (isspace c) eqn:Hc.
  - exists (c :: l). cbn [app forallb]. rewrite Hc, Hl.
    split; [f_equal; exact E | reflexivity].
  - exists []. auto.
Qed.

(** [strip] removes a run of whitespace at each end and nothing else. *)
Lemma strip_split s :
  exists l r,
    s = l ++ strip s ++ r
    /\ forallb isspace l = true /\ forallb isspace r = true.
Proof.
  destruct (lstrip_split s) as (l & El & Hl).
  destruct (lstrip_split (rev (lstrip s))) as (r & Er & Hr).
  exists l, (rev r). unfold strip, rstrip. split; [| split].
  - rewrite <- rev_app_distr, <- Er, rev_involutive. exact El.
  - exact Hl.
  - rewrite forallb_forall in *. intros x Hx. apply Hr, in_rev, Hx.
Qed.

(** The five ways a captured call can go. *)
Lemma run_command_cases cmd st :
  (cmd = [] /\ run_command cmd st = (Raise IndexError, st))
  \/ (exists prog args k,
        cmd = prog :: args /\ lookup (world st) prog = Some k
        /\ run_command cmd st =
             (Raise (OSError k), log (Subprocess true cmd (SpawnFailed k)) st))
  \/ (exists prog args c w',
        cmd = prog :: args /\ lookup (world st) prog = None
        /\ child (world st) true cmd = (c, w')
        /\ decodable c = true
        /\ returncode c = 0%Z
        /\ run_command cmd st =
             (Ret (Some (strip (stdout c))),
              {| stdin := skipn (consumed c) (stdin st);
                 events := events st ++ [Subprocess true cmd (Exited c)];
                 world := w' |}))
  \/ (exists prog args c w',
        cmd = prog :: args /\ lookup (world st) prog = None
        /\ child (world st) true cmd = (c, w')
        /\ decodable c = true
        /\ returncode c <> 0%Z
        /\ run_command cmd st =
             (Ret None,
              {| stdin := skipn (consumed c) (stdin st);
                 events := events st
                           ++ [Subprocess true cmd (Exited c);
                               Printed (py "❌ Error ejecutando comando: "
                                        ++ strip (stderr c))];
                 world := w' |}))
  \/ (exists prog args c w',
        cmd = prog :: args /\ lookup (world st) prog = None
        /\ child (world st) true cmd = (c, w')
        /\ decodable c = false
        /\ run_command cmd st =
             (Raise UnicodeDecodeError,
              {| stdin := skipn (consumed c) (stdin st);
                 events := events st ++ [Subprocess true cmd (Exited c)];
                 world := w' |})).
Proof.
  destruct cmd as [| prog args]; [left; split; reflexivity |].
  right. destruct (lookup (world st) prog) as [k |] eqn:Hl.
  - left. exists prog, args, k. repeat split; auto.
    unfold run_command, try_except, bind.
    rewrite (subprocess_run_not_started _ _ _ _ _ _ Hl). reflexivity.
  - right. destruct (child (world st) true (prog :: args)) as [c w'] eqn:Hc.
    assert (Hrun := subprocess_run_started prog args true true st c w' Hl Hc).
    destruct (decodable c) eqn:Hd; cbn [andb negb] in Hrun.
    + destruct (returncode c =? 0)%Z eqn:Hz; cbn [negb] in Hrun.
      * left. exists prog, args, c, w'.
        repeat split; auto; [now apply Z.eqb_eq |].
        unfold run_command, try_except, bind. rewrite Hrun. reflexivity.
      * right. left. exists prog, args, c, w'.
        repeat split; auto; [now apply Z.eqb_neq |].
        unfold run_command, try_except, bind. rewrite Hrun.
        unfold print, log, ret. cbn [stdin events world].
        rewrite <- app_assoc. reflexivity.
    + right. right. exists prog, args, c, w'. repeat split; auto.
      unfold run_command, try_except, bind. rewrite Hrun. reflexivity.
Qed.

(** The three ways an interactive call can go. *)
Lemma run_command_interactive_cases cmd st :
  (cmd = [] /\ run_command_interactive cmd st = (Raise IndexError, st))
  \/ (exists prog args k,
        cmd = prog :: args /\ lookup (world st) prog = Some k
        /\ run_command_interactive cmd st =
             (Raise (OSError k), log (Subprocess false cmd (SpawnFailed k)) st))
  \/ (exists prog args c w',
        cmd = prog :: args /\ lookup (world st) prog = None
        /\ child (world st) false cmd = (c, w')
        /\ run_command_interactive cmd st =
             (Ret (returncode c =? 0)%Z,
              {| stdin := skipn (consumed c) (stdin st);
                 events := events st ++ [Subprocess false cmd (Exited c)];
                 world := w' |})).
Proof.
  destruct cmd as [| prog args]; [left; split; reflexivity |].
  right. destruct (lookup (world st) prog) as [k |] eqn:Hl.
  - left. exists prog, args, k. repeat split; auto.
    unfold run_command_interactive, try_except, bind.
    rewrite (subprocess_run_not_started _ _ _ _ _ _ Hl). reflexivity.
  - right. destruct (child (world st) false (prog :: args)) as [c w'] eqn:Hc.
    exists prog, args, c, w'. repeat split; auto.
    unfold run_command_interactive, try_except, bind.
    rewrite (subprocess_run_started prog args false true st c w' Hl Hc).
    destruct (returncode c =? 0)%Z eqn:Hz; cbn [andb negb]; unfold ret;
      [rewrite Hz |]; reflexivity.
Qed.



Lemma run_command_ok prog args st c w' :
  lookup (world st) prog = None ->
  child (world st) true (prog :: args) = (c, w') ->
  decodable c = true ->
  returncode c = 0%Z ->
  run_command (prog :: args) st =
    (Ret (Some (strip (stdout c))),
     {| stdin := skipn (consumed c) (stdin st);
        events := events st ++ [Subprocess true (prog :: args) (Exited c)];
        world := w' |}).
Proof.
  intros Hl Hc Hd Hz. unfold run_command, try_except, bind.
  rewrite (subprocess_run_started _ _ _ _ _ _ _ Hl Hc), Hd, Hz. reflexivity.
Qed.

(* ===================================================================== *)
(** * A relational logic for the operations *)
(* ===================================================================== *)

(** Every resource operation is built from [print], [input],
    [os.path.exists], a captured engine call whose result is tested for
    truth and reported, and an interactive engine call.  A relation that
    holds of these five, of returning, and is closed under sequencing,
    holds of every operation. *)
Section Logic.

Variable R : forall A : Type, St -> Res A -> St -> Prop.

Hypothesis R_ret : forall A (a : A) st, R A st (Ret a) st.
Hypothesis R_seq :
  forall A B st (a : A) st1 (r : Res B) st2,
    R A st (Ret a) st1 -> R B st1 r st2 -> R B st r st2.
Hypothesis R_raise :
  forall A B st e st1, R A st (Raise e) st1 -> R B st (Raise e) st1.
Hypothesis R_print : forall s, sat (print s) (R unit).
Hypothesis R_input : forall p, sat (input p) (R str).
Hypothesis R_report :
  forall cmd (ok : option str -> str) err,
    failure_line err = true ->
    sat (result <- run_command cmd ;;
         if truthy result then print (ok result) else print err)
        (R unit).
Hypothesis R_interactive :
  forall cmd, sat (run_command_interactive cmd) (R bool).

Lemma sat_ret {A} (a : A) : sat (ret a) (R A).
Proof. intros st. apply R_ret. Qed.

Lemma sat_exists p : sat (os_path_exists p) (R bool).
Proof. intros st. apply R_ret. Qed.

Lemma sat_bind {A B} (m : M A) (f : A -> M B) :
  sat m (R A) -> (forall a, sat (f a) (R B)) -> sat (bind m f) (R B).
Proof.
  intros Hm Hf st. specialize (Hm st). unfold bind.
  destruct (m st) as [[a | e] st1]; cbn [fst snd] in *.
  - eapply R_seq; [exact Hm | apply Hf].
  - eapply R_raise; exact Hm.
Qed.

Ltac sat_step :=
  cbv zeta;
  lazymatch goal with
  | |- sat (bind (run_command _) _) _ =>
      refine (R_report _ (fun result => _) _ _); reflexivity
  | |- sat (run_command_interactive _) _ => apply R_interactive
  | |- sat (print _) _ => apply R_print
  | |- sat (input _) _ => apply R_input
  | |- sat (ret _) _ => apply sat_ret
  | |- sat (os_path_exists _) _ => apply sat_exists
  | |- sat (bind _ _) _ => apply sat_bind; [ | intro ]
  | |- sat (if ?b then _ else _) _ => destruct b
  end.

Lemma sat_list_images : sat list_images (R unit).
Proof. unfold list_images. repeat sat_step. Qed.

Lemma sat_list_containers b : sat (list_containers b) (R unit).
Proof. unfold list_containers. repeat sat_step. Qed.

Ltac sat_operation :=
  repeat lazymatch goal with
         | |- sat list_images _ => apply sat_list_images
         | |- sat (list_containers _) _ => apply sat_list_containers
         | |- _ => sat_step
         end.

Lemma sat_perform op : sat (perform op) (R unit).
Proof.
  destruct op; cbn [perform].
  - apply sat_list_images.
  - unfold pull_image. sat_operation.
  - unfold build_image. sat_operation.
  - unfold remove_image. sat_operation.
  - apply sat_list_containers.
  - unfold run_container. sat_operation.
  - unfold start_container. sat_operation.
  - unfold stop_container. sat_operation.
  - unfold restart_container. sat_operation.
  - unfold remove_container. sat_operation.
  - unfold view_logs. sat_operation.
  - unfold exec_container. sat_operation.
  - unfold system_info. sat_operation.
  - unfold disk_usage. sat_operation.
  - unfold system_cleanup. sat_operation.
Qed.

Ltac sat_menu :=
  cbv zeta;
  lazymatch goal with
  | |- sat list_images _ => exact (sat_perform ListImages)
  | |- sat pull_image _ => exact (sat_perform PullImage)
  | |- sat build_image _ => exact (sat_perform BuildImage)
  | |- sat remove_image _ => exact (sat_perform RemoveImage)
  | |- sat (list_containers ?b) _ => exact (sat_perform (ListContainers b))
  | |- sat run_container _ => exact (sat_perform RunContainer)
  | |- sat start_container _ => exact (sat_perform StartContainer)
  | |- sat stop_container _ => exact (sat_perform StopContainer)
  | |- sat restart_container _ => exact (sat_perform RestartContainer)
  | |- sat remove_container _ => exact (sat_perform RemoveContainer)
  | |- sat view_logs _ => exact (sat_perform ViewLogs)
  | |- sat exec_container _ => exact (sat_perform ExecContainer)
  | |- sat system_info _ => exact (sat_perform SystemInfo)
  | |- sat disk_usage _ => exact (sat_perform DiskUsage)
  | |- sat system_cleanup _ => exact (sat_perform SystemCleanup)
  | |- sat (match ?flow with Next => _ | Break => _ end) _ => destruct flow
  | |- _ => sat_step
  end.

(** The relation holds of every pass through a menu's loop body too. *)
Lemma sat_iteration m : sat (iteration m) (R Menu).
Proof.
  destruct m; cbn [iteration];
    unfold main_menu, handle_image_menu, handle_container_menu,
      handle_system_menu, show_header, show_main_menu, show_image_menu,
      show_container_menu, show_system_menu;
    repeat sat_menu.
Qed.

End Logic.

(** ** First instance: spawn faults pass through every operation *)

Lemma faults_pass_here {A} (st st' : St) (r : Res A) evs :
  events st' = events st ++ evs ->
  (forall e, r = Raise e -> engine_failure e = false) ->
  (forall capture cmd k,
      In (Subprocess capture cmd (SpawnFailed k)) evs -> r = Raise (OSError k)) ->
  faults_pass st r st'.
Proof. intros E N F. exists evs. auto. Qed.

Ltac faults_now evs :=
  apply (faults_pass_here _ _ _ evs);
  [ cbn [events log]; rewrite <- ?app_assoc, ?app_nil_r; reflexivity
  | intros ? Hr; try discriminate Hr; injection Hr as <-; reflexivity
  | cbn [In]; intros ? ? ? Hin;
    repeat (destruct Hin as [Hin | Hin]; try discriminate Hin);
    try contradiction;
    try (injection Hin as _ _ <-; reflexivity) ].

Lemma faults_pass_print s : sat (print s) faults_pass.
Proof. intros st. cbn [print fst snd]. faults_now [Printed s]. Qed.

Lemma faults_pass_input p : sat (input p) faults_pass.
Proof.
  intros st. unfold input.
  destruct (stdin st) as [| [line |] rest]; cbn [fst snd];
    faults_now [Prompted p].
Qed.

Lemma faults_pass_interactive cmd :
  sat (run_command_interactive cmd) faults_pass.
Proof.
  intros st.
  destruct (run_command_interactive_cases cmd st)
    as [(-> & E) | [(prog & args & k & -> & _ & E)
                   | (prog & args & c & w' & -> & _ & _ & E)]];
    rewrite E; cbn [fst snd].
  - faults_now (@nil Event).
  - faults_now [Subprocess false (prog :: args) (SpawnFailed k)].
  - faults_now [Subprocess false (prog :: args) (Exited c)].
Qed.

Lemma faults_pass_report cmd (ok : option str -> str) err :
  failure_line err = true ->
  sat (result <- run_command cmd ;;
       if truthy result then print (ok result) else print err)
      faults_pass.
Proof.
  intros _ st. unfold bind.
  destruct (run_command_cases cmd st)
    as [(-> & E) | [(prog & args & k & -> & _ & E)
                   | [(prog & args & c & w' & -> & _ & _ & _ & _ & E)
                     | [(prog & args & c & w' & -> & _ & _ & _ & _ & E)
                       | (prog & args & c & w' & -> & _ & _ & _ & E)]]]];
    rewrite E; cbn [fst snd].
  - faults_now (@nil Event).
  - faults_now [Subprocess true (prog :: args) (SpawnFailed k)].
  - destruct (truthy (Some (strip (stdout c)))); cbn [print fst snd].
    + faults_now [Subprocess true (prog :: args) (Exited c);
                  Printed (ok (Some (strip (stdout c))))].
    + faults_now [Subprocess true (prog :: args) (Exited c); Printed err].
  - cbn [truthy print fst snd].
    faults_now [Subprocess true (prog :: args) (Exited c);
                Printed (py "❌ Error ejecutando comando: " ++ strip (stderr c));
                Printed err].
  - faults_now [Subprocess true (prog :: args) (Exited c)].
Qed.

Lemma perform_faults_pass op : sat (perform op) faults_pass.
Proof.
  apply (sat_perform (fun A => @faults_pass A)).
  - intros A a st. faults_now (@nil Event).
  - intros A B st a st1 r st2 (evs1 & E1 & _ & F1) (evs2 & E2 & N2 & F2).
    exists (evs1 ++ evs2). split; [| split].
    + rewrite E2, E1, app_assoc. reflexivity.
    + exact N2.
    + intros capture cmd k Hin. apply in_app_or in Hin as [Hin | Hin].
      * discriminate (F1 _ _ _ Hin).
      * exact (F2 _ _ _ Hin).
  - intros A B st e st1 (evs & E & N & F). exists evs. split; [| split].
    + exact E.
    + intros e' He. injection He as <-. apply N. reflexivity.
    + intros capture cmd k Hin. specialize (F _ _ _ Hin).
      injection F as ->. reflexivity.
  - exact faults_pass_print.
  - exact faults_pass_input.
  - exact faults_pass_report.
  - exact faults_pass_interactive.
Qed.

(** ** Second instance: a silent success is answered by a failure line *)

Lemma answered_app evs1 evs2 :
  answered evs1 = true -> answered evs2 = true ->
  answered (evs1 ++ evs2) = true.
Proof.
  induction evs1 as [| e rest IH]; intros H1 H2; [exact H2 |].
  cbn [answered app] in *. apply andb_true_iff in H1 as [Hhead Hrest].
  apply andb_true_iff. split; [| auto].
  destruct (silent_success e); [| reflexivity].
  destruct rest as [| [msg | |] rest']; try discriminate Hhead.
  exact Hhead.
Qed.

Lemma reports_here {A} (st st' : St) (r : Res A) evs :
  events st' = events st ++ evs -> answered evs = true -> reports st r st'.
Proof. intros E H. exists evs. auto. Qed.

Ltac reports_now evs :=
  apply (reports_here _ _ _ evs);
  [ cbn [events log]; rewrite <- ?app_assoc, ?app_nil_r; reflexivity
  | try reflexivity ].

Lemma reports_print s : sat (print s) reports.
Proof. intros st. cbn [print fst snd]. reports_now [Printed s]. Qed.

Lemma reports_input p : sat (input p) reports.
Proof.
  intros st. unfold input.
  destruct (stdin st) as [| [line |] rest]; cbn [fst snd];
    reports_now [Prompted p].
Qed.

Lemma reports_interactive cmd : sat (run_command_interactive cmd) reports.
Proof.
  intros st.
  destruct (run_command_interactive_cases cmd st)
    as [(-> & E) | [(prog & args & k & -> & _ & E)
                   | (prog & args & c & w' & -> & _ & _ & E)]];
    rewrite E; cbn [fst snd].
  - reports_now (@nil Event).
  - reports_now [Subprocess false (prog :: args) (SpawnFailed k)].
  - reports_now [Subprocess false (prog :: args) (Exited c)].
Qed.

Lemma reports_report cmd (ok : option str -> str) err :
  failure_line err = true ->
  sat (result <- run_command cmd ;;
       if truthy result then print (ok result) else print err)
      reports.
Proof.
  intros Herr st. unfold bind.
  destruct (run_command_cases cmd st)
    as [(-> & E) | [(prog & args & k & -> & _ & E)
                   | [(prog & args & c & w' & -> & _ & _ & Hd & Hz & E)
                     | [(prog & args & c & w' & -> & _ & _ & Hd & Hz & E)
                       | (prog & args & c & w' & -> & _ & _ & Hd & E)]]]];
    rewrite E; cbn [fst snd].
  - reports_now (@nil Event).
  - reports_now [Subprocess true (prog :: args) (SpawnFailed k)].
  - cbn [truthy].
    destruct (nonempty (strip (stdout c))) eqn:Hout; cbn [print fst snd].
    + reports_now [Subprocess true (prog :: args) (Exited c);
                   Printed (ok (Some (strip (stdout c))))].
      cbn [answered silent_success]. rewrite Hout, andb_false_r.
      reflexivity.
    + reports_now [Subprocess true (prog :: args) (Exited c); Printed err].
      cbn [answered silent_success]. rewrite Hd, Hout, Hz, Herr.
      reflexivity.
  - cbn [truthy print fst snd].
    reports_now [Subprocess true (prog :: args) (Exited c);
                 Printed (py "❌ Error ejecutando comando: " ++ strip (stderr c));
                 Printed err].
    cbn [answered silent_success].
    apply Z.eqb_neq in Hz. rewrite Hz, andb_false_r. reflexivity.
  - reports_now [Subprocess true (prog :: args) (Exited c)].
    cbn [answered silent_success]. rewrite Hd. reflexivity.
Qed.

Lemma perform_reports op : sat (perform op) reports.
Proof.
  apply (sat_perform (fun A => @reports A)).
  - intros A a st. reports_now (@nil Event).
  - intros A B st a st1 r st2 (evs1 & E1 & H1) (evs2 & E2 & H2).
    exists (evs1 ++ evs2). split.
    + rewrite E2, E1, app_assoc. reflexivity.
    + apply answered_app; assumption.
  - intros A B st e st1 (evs & E & H). exists evs. auto.
  - exact reports_print.
  - exact reports_input.
  - exact reports_report.
  - exact reports_interactive.
Qed.

(** ** Third instance: the session ends *)

Lemma shrinks_print s : sat (print s) shrinks.
Proof. intros st. unfold shrinks. cbn [print fst snd log stdin]. lia. Qed.

Lemma shrinks_input p : sat (input p) shrinks.
Proof.
  intros st. unfold shrinks, input.
  destruct (stdin st) as [| [line |] rest] eqn:E;
    cbn [fst snd log stdin]; rewrite ?E; cbn [length]; lia.
Qed.

Lemma consumes_input p : sat (input p) consumes.
Proof.
  intros st. unfold consumes, input.
  destruct (stdin st) as [| [line |] rest] eqn:E;
    cbn [fst snd log stdin]; rewrite ?E; cbn [length]; lia.
Qed.

Lemma shrinks_interactive cmd : sat (run_command_interactive cmd) shrinks.
Proof.
  intros st. unfold shrinks.
  destruct (run_command_interactive_cases cmd st)
    as [(-> & E) | [(prog & args & k & -> & _ & E)
                   | (prog & args & c & w' & -> & _ & _ & E)]];
    rewrite E; cbn [fst snd log stdin]; rewrite ?length_skipn; lia.
Qed.

Lemma shrinks_report cmd (ok : option str -> str) err :
  failure_line err = true ->
  sat (result <- run_command cmd ;;
       if truthy result then print (ok result) else print err)
      shrinks.
Proof.
  intros _ st. unfold shrinks, bind.
  destruct (run_command_cases cmd st)
    as [(-> & E) | [(prog & args & k & -> & _ & E)
                   | [(prog & args & c & w' & -> & _ & _ & _ & _ & E)
                     | [(prog & args & c & w' & -> & _ & _ & _ & _ & E)
                       | (prog & args & c & w' & -> & _ & _ & _ & E)]]]];
    rewrite E; try destruct (truthy (Some (strip (stdout c))));
    cbn [truthy print fst snd log stdin]; rewrite ?length_skipn; lia.
Qed.

Lemma shrinks_seq A B (st : St) (a : A) st1 (r : Res B) st2 :
  shrinks st (Ret a) st1 -> shrinks st1 r st2 -> shrinks st r st2.
Proof. unfold shrinks. lia. Qed.

Lemma shrinks_bind {A B} (m : M A) (f : A -> M B) :
  sat m shrinks -> (forall a, sat (f a) shrinks) -> sat (bind m f) shrinks.
Proof.
  apply (sat_bind (fun A => @shrinks A)).
  - exact shrinks_seq.
  - intros A' B' st e st1 H. exact H.
Qed.

Lemma perform_shrinks op : sat (perform op) shrinks.
Proof.
  apply (sat_perform (fun A => @shrinks A)).
  - intros A a st. unfold shrinks. lia.
  - exact shrinks_seq.
  - intros A B st e st1 H. exact H.
  - exact shrinks_print.
  - exact shrinks_input.
  - exact shrinks_report.
  - exact shrinks_interactive.
Qed.

Lemma consumes_first {A B} (m : M A) (f : A -> M B) :
  sat m consumes -> (forall a, sat (f a) shrinks) -> sat (bind m f) consumes.
Proof.
  intros Hm Hf st. specialize (Hm st). unfold bind, consumes in *.
  destruct (m st) as [[a | e] st1]; cbn [fst snd] in *; [| exact Hm].
  specialize (Hf a st1). unfold shrinks in Hf.
  destruct (fst (f a st1)); lia.
Qed.

Lemma consumes_later {A B} (m : M A) (f : A -> M B) :
  sat m shrinks -> (forall a, sat (f a) consumes) -> sat (bind m f) consumes.
Proof.
  intros Hm Hf st. specialize (Hm st). unfold bind, shrinks in *.
  destruct (m st) as [[a | e] st1]; cbn [fst snd] in *; [| exact Hm].
  specialize (Hf a st1). unfold consumes in *.
  destruct (fst (f a st1)); lia.
Qed.

Ltac shrinks_step :=
  cbv zeta;
  lazymatch goal with
  | |- sat list_images _ => exact (perform_shrinks ListImages)
  | |- sat pull_image _ => exact (perform_shrinks PullImage)
  | |- sat build_image _ => exact (perform_shrinks BuildImage)
  | |- sat remove_image _ => exact (perform_shrinks RemoveImage)
  | |- sat (list_containers ?b) _ => exact (perform_shrinks (ListContainers b))
  | |- sat run_container _ => exact (perform_shrinks RunContainer)
  | |- sat start_container _ => exact (perform_shrinks StartContainer)
  | |- sat stop_container _ => exact (perform_shrinks StopContainer)
  | |- sat restart_container _ => exact (perform_shrinks RestartContainer)
  | |- sat remove_container _ => exact (perform_shrinks RemoveContainer)
  | |- sat view_logs _ => exact (perform_shrinks ViewLogs)
  | |- sat exec_container _ => exact (perform_shrinks ExecContainer)
  | |- sat system_info _ => exact (perform_shrinks SystemInfo)
  | |- sat disk_usage _ => exact (perform_shrinks DiskUsage)
  | |- sat system_cleanup _ => exact (perform_shrinks SystemCleanup)
  | |- sat (print _) _ => apply shrinks_print
  | |- sat (input _) _ => apply shrinks_input
  | |- sat (ret _) _ => intros ?; unfold shrinks; cbn [ret fst snd]; lia
  | |- sat (bind _ _) _ => apply shrinks_bind; [ | intro ]
  | |- sat (if ?b then _ else _) _ => destruct b
  | |- sat (match ?flow with Next => _ | Break => _ end) _ => destruct flow
  end.

(** A pass through a menu's loop body that comes back has read a key. *)
Lemma iteration_consumes m : m <> Exit -> sat (iteration m) consumes.
Proof.
  intros Hm. destruct m; [| | | | contradiction]; cbn [iteration].
  - unfold main_menu. apply consumes_later.
    { unfold show_header. repeat shrinks_step. }
    intros _. apply consumes_later.
    { unfold show_main_menu. repeat shrinks_step. }
    intros _. apply consumes_first; [apply consumes_input |].
    intros raw. repeat shrinks_step.
  - unfold handle_image_menu. apply consumes_later.
    { unfold show_image_menu. repeat shrinks_step. }
    intros _. apply consumes_first; [apply consumes_input |].
    intros raw. repeat shrinks_step.
  - unfold handle_container_menu. apply consumes_later.
    { unfold show_container_menu. repeat shrinks_step. }
    intros _. apply consumes_first; [apply consumes_input |].
    intros raw. repeat shrinks_step.
  - unfold handle_system_menu. apply consumes_later.
    { unfold show_system_menu. repeat shrinks_step. }
    intros _. apply consumes_first; [apply consumes_input |].
    intros raw. repeat shrinks_step.
Qed.

(** With one unit of fuel more than the operator has keys to press, the
    loops end: in [Exit], or by an exception. *)
Lemma session_ends fuel m st :
  length (stdin st) < fuel -> exists r st', session fuel m st = Some (r, st').
Proof.
  revert m st. induction fuel as [| fuel IH]; intros m st Hfuel; [lia |].
  destruct m; try (eexists; eexists; reflexivity);
    cbn [session];
    match goal with
    | |- context [iteration ?m st] =>
        assert (Hc := iteration_consumes m ltac:(discriminate) st);
        unfold consumes in Hc;
        destruct (iteration m st) as [[m' | e] st1]; cbn [fst snd] in Hc;
        [ apply IH; lia | eexists; eexists; reflexivity ]
    end.
Qed.

Lemma run_ends st :
  exists r st', run (S (length (stdin st))) st = Some (r, st').
Proof.
  destruct (session_ends (S (length (stdin st))) MainMenu st) as (r & st' & E);
    [lia |].
  unfold run. rewrite E.
  destruct r as [[] | e]; [eexists; eexists; reflexivity |].
  destruct e; cbn [is_Exception]; eexists; eexists; reflexivity.
Qed.

(* ===================================================================== *)
(** * The command executor *)
(* ===================================================================== *)


(** C2.  When the first token names a program the system cannot start,
    both executors raise the operating system's error: neither returns a
    result, and the log records that no child ran. *)
Theorem missing_binary_faults prog args st k :
  lookup (world st) prog = Some k ->
  run_command (prog :: args) st =
    (Raise (OSError k), log (Subprocess true (prog :: args) (SpawnFailed k)) st)
  /\ run_command_interactive (prog :: args) st =
    (Raise (OSError k), log (Subprocess false (prog :: args) (SpawnFailed k)) st).
Proof.
  intros Hl. unfold run_command, run_command_interactive, try_except, bind.
  rewrite !(subprocess_run_not_started _ _ _ _ _ _ Hl). split; reflexivity.
Qed.

(** A captured call followed by code that runs nothing hands exactly one
    argument vector to [subprocess.run]. *)
Lemma report_commands cmd (k : option str -> M unit) st :
  cmd <> [] ->
  (forall r st0, commands (events (snd (k r st0))) = commands (events st0)) ->
  commands (events (snd (bind (run_command cmd) k st))) =
    commands (events st) ++ [(true, cmd)].
Proof.
  intros Hcmd Hk. unfold bind.
  destruct (run_command_cases cmd st)
    as [(-> & E) | [(prog & args & e & -> & _ & E)
                   | [(prog & args & c & w' & -> & _ & _ & _ & _ & E)
                     | [(prog & args & c & w' & -> & _ & _ & _ & _ & E)
                       | (prog & args & c & w' & -> & _ & _ & _ & E)]]]];
    [contradiction | rewrite E ..]; rewrite ?Hk; cbn [snd events log];
    rewrite commands_app; reflexivity.
Qed.


Lemma truth_report_quiet (ok : option str -> str) err r (st0 : St) :
  commands
    (events (snd ((if truthy r then print (ok r) else print err) st0))) =
  commands (events st0).
Proof.
  destruct (truthy r); cbn [print snd events log];
    rewrite commands_app; cbn [commands]; apply app_nil_r.
Qed.

(* ===================================================================== *)
(** * The resource operations *)
(* ===================================================================== *)

(** ** The vectors every operation can run *)














(** C6.  With the two optional fields empty the run-container command is
    [docker run -d image]; in general it is these tokens with [--name name]
    and [-p port] inserted for the fields that are filled in, so filling a
    field in adds two tokens, and an empty field adds none: no token of the
    command is the empty string.  This command, and no other, reaches the
    executor. *)
Theorem run_container_command :
  (forall image, run_container_cmd image [] [] = [docker; py "run"; py "-d"; image])
  /\ (forall image name port,
        run_container_cmd image name port =
          [docker; py "run"; py "-d"]
          ++ (if nonempty name then [py "--name"; name] else [])
          ++ (if nonempty port then [py "-p"; port] else [])
          ++ [image])
  /\ (forall image name port,
        nonempty name = true ->
        length (run_container_cmd image name port) =
          2 + length (run_container_cmd image [] port))
  /\ (forall image name port,
        nonempty port = true ->
        length (run_container_cmd image name port) =
          2 + length (run_container_cmd image name []))
  /\ (forall image name port,
        nonempty image = true ->
        ~ In [] (run_container_cmd image name port))
  /\ (forall st raw_image raw_name raw_port rest,
        stdin st = Line raw_image :: Line raw_name :: Line raw_port :: rest ->
        nonempty (strip raw_image) = true ->
        commands (events (snd (run_container st))) =
          commands (events st)
          ++ [(true, run_container_cmd (strip raw_image) (strip raw_name)
                       (strip raw_port))]).
Proof.
  assert (Hform : forall image name port,
             run_container_cmd image name port =
               [docker; py "run"; py "-d"]
               ++ (if nonempty name then [py "--name"; name] else [])
               ++ (if nonempty port then [py "-p"; port] else [])
               ++ [image]).
  { intros image name port. unfold run_container_cmd.
    destruct (nonempty name), (nonempty port); reflexivity. }
  split; [reflexivity |]. split; [exact Hform |].
  split; [| split; [| split]].
  - intros image name port Hname. rewrite !Hform, Hname.
    cbn [nonempty]. destruct (nonempty port); reflexivity.
  - intros image name port Hport. rewrite !Hform, Hport.
    cbn [nonempty]. destruct (nonempty name); reflexivity.
  - intros image name port Himage. rewrite Hform.
    destruct image as [| c image]; [discriminate |].
    destruct name as [| x name], port as [| y port]; cbn [nonempty app In];
      intros Hin;
      repeat (destruct Hin as [Hin | Hin]; [vm_compute in Hin; discriminate |]);
      exact Hin.
  - intros st raw_image raw_name raw_port rest Hin Himage.
    unfold run_container. steps Hin. rewrite Himage. cbn [negb].
    rewrite report_commands.
    + cbn [events]. rewrite !commands_app. cbn [commands].
      rewrite !app_nil_r. reflexivity.
    + rewrite Hform. discriminate.
    + intros r st0. apply (truth_report_quiet (fun _ => _)).
Qed.

(** C7, as the code has it.  An operation whose required field is empty
    after stripping prints its validation message and returns; nothing
    runs from the prompt on, and the world is as it was when the prompt
    appeared.  The operations that list before they act have by then run
    their listing; pull, build and run-container have run nothing at all.
    Build also returns with a message, and runs nothing, when there is no
    Dockerfile under the given path. *)
Theorem empty_required_field_rejected :
  rejects (ret tt) pull_image
    (nl ++ py "⬇️ DESCARGAR IMAGEN")
    (py "Ingresa el nombre de la imagen (ej: nginx:latest): ")
    (py "❌ Nombre de imagen no puede estar vacío")
  /\ rejects list_images remove_image
       (nl ++ py "🗑️ ELIMINAR IMAGEN")
       (py "Ingresa el ID o nombre de la imagen a eliminar: ")
       (py "❌ ID de imagen no puede estar vacío")
  /\ rejects (list_containers true) start_container
       (nl ++ py "▶️ INICIAR CONTENEDOR")
       (py "ID o nombre del contenedor a iniciar: ")
       (py "❌ ID de contenedor no puede estar vacío")
  /\ rejects (list_containers true) stop_container
       (nl ++ py "⏹️ DETENER CONTENEDOR")
       (py "ID o nombre del contenedor a detener: ")
       (py "❌ ID de contenedor no puede estar vacío")
  /\ rejects (list_containers true) restart_container
       (nl ++ py "🔄 REINICIAR CONTENEDOR")
       (py "ID o nombre del contenedor a reiniciar: ")
       (py "❌ ID de contenedor no puede estar vacío")
  /\ rejects (list_containers true) remove_container
       (nl ++ py "🗑️ ELIMINAR CONTENEDOR")
       (py "ID o nombre del contenedor a eliminar: ")
       (py "❌ ID de contenedor no puede estar vacío")
  /\ rejects (list_containers true) view_logs
       (nl ++ py "📋 VER LOGS")
       (py "ID o nombre del contenedor: ")
       (py "❌ ID de contenedor no puede estar vacío")
  /\ rejects (list_containers false) exec_container
       (nl ++ py "💻 EJECUTAR COMANDO EN CONTENEDOR")
       (py "ID o nombre del contenedor: ")
       (py "❌ ID de contenedor no puede estar vacío")
  /\ (forall st raw_image raw_name raw_port rest,
        stdin st = Line raw_image :: Line raw_name :: Line raw_port :: rest ->
        strip raw_image = [] ->
        run_container st =
          (Ret tt,
           {| stdin := rest;
              events := events st
                        ++ [Printed (nl ++ py "🚀 EJECUTAR CONTENEDOR");
                            Prompted (py "Nombre de la imagen: ");
                            Prompted (py "Nombre del contenedor (opcional): ");
                            Prompted (py "Mapeo de puertos (ej: 8080:80, opcional): ");
                            Printed (py "❌ Nombre de imagen no puede estar vacío")];
              world := world st |}))
  /\ (forall st raw_path raw_name rest,
        stdin st = Line raw_path :: Line raw_name :: rest ->
        let dockerfile_path :=
          if nonempty (strip raw_path) then strip raw_path else py "." in
        strip raw_name = []
        \/ path_exists (world st) (dockerfile_path ++ py "/Dockerfile") = false ->
        build_image st =
          (Ret tt,
           {| stdin := rest;
              events := events st
                        ++ [Printed (nl ++ py "🔨 CONSTRUIR IMAGEN");
                            Prompted (py "Ruta del directorio con Dockerfile (. para actual): ");
                            Prompted (py "Nombre para la nueva imagen: ");
                            Printed
                              (if nonempty (strip raw_name)
                               then py "❌ No se encontró Dockerfile en "
                                    ++ dockerfile_path
                               else py "❌ Nombre de imagen no puede estar vacío")];
              world := world st |})).
Proof.
  repeat match goal with |- rejects _ _ _ _ _ /\ _ => split end;
    try (intros st st1 raw rest Hpre Hin Hraw;
         first [ injection Hpre as <-; unfold pull_image
               | progress unfold remove_image
               | progress unfold start_container
               | progress unfold stop_container
               | progress unfold restart_container
               | progress unfold remove_container
               | progress unfold view_logs
               | progress unfold exec_container ];
         rewrite ?(bind_Ret _ _ _ _ _ Hpre); typed Hin; typed Hraw; done).
  split.
  - intros st raw_image raw_name raw_port rest Hin Hraw.
    unfold run_container. typed Hin. typed Hraw. done.
  - intros st raw_path raw_name rest Hin dockerfile_path Hbad.
    subst dockerfile_path. unfold build_image. typed Hin.
    destruct (nonempty (strip raw_name)) eqn:Hname.
    + destruct Hbad as [Hraw | Hmissing].
      * rewrite Hraw in Hname. discriminate.
      * exec. rewrite Hmissing. done.
    + done.
Qed.

(** C3, as the code has it.  When the answer at the gate is anything but
    [s] (after stripping and lower-casing), a destructive operation returns
    at once: from the confirmation prompt on nothing is printed and nothing
    is run, and the world is as it was at the prompt.  System prune has run
    nothing at all by then; remove-image and remove-container have run
    their listing, before asking which resource to remove. *)
Theorem gate_guards_destructive_command :
  (forall st answer rest,
      stdin st = Line answer :: rest ->
      proceed answer = false ->
      system_cleanup st =
        (Ret tt,
         {| stdin := rest;
            events := events st
                      ++ [Printed (nl ++ py "🧹 LIMPIEZA DEL SISTEMA");
                          Printed (py "Esto eliminará:");
                          Printed (py "- Contenedores detenidos");
                          Printed (py "- Redes no utilizadas");
                          Printed (py "- Imágenes sin referencia");
                          Printed (py "- Caché de construcción");
                          Prompted (nl ++ py "¿Continuar con la limpieza? (s/N): ")];
            world := world st |}))
  /\ (forall st st1 raw answer rest,
        list_images st = (Ret tt, st1) ->
        stdin st1 = Line raw :: Line answer :: rest ->
        nonempty (strip raw) = true ->
        proceed answer = false ->
        remove_image st =
          (Ret tt,
           {| stdin := rest;
              events := events st1
                        ++ [Printed (nl ++ py "🗑️ ELIMINAR IMAGEN");
                            Prompted (py "Ingresa el ID o nombre de la imagen a eliminar: ");
                            Prompted (py "¿Estás seguro de eliminar la imagen "
                                      ++ strip raw ++ py "? (s/N): ")];
              world := world st1 |}))
  /\ (forall st st1 raw answer rest,
        list_containers true st = (Ret tt, st1) ->
        stdin st1 = Line raw :: Line answer :: rest ->
        nonempty (strip raw) = true ->
        proceed answer = false ->
        remove_container st =
          (Ret tt,
           {| stdin := rest;
              events := events st1
                        ++ [Printed (nl ++ py "🗑️ ELIMINAR CONTENEDOR");
                            Prompted (py "ID o nombre del contenedor a eliminar: ");
                            Prompted (py "¿Estás seguro de eliminar el contenedor "
                                      ++ strip raw ++ py "? (s/N): ")];
              world := world st1 |})).
Proof.
  split; [| split].
  - intros st answer rest Hin Hno. unfold proceed in Hno.
    unfold system_cleanup. typed Hin. typed Hno. done.
  - intros st st1 raw answer rest Hpre Hin Hraw Hno. unfold proceed in Hno.
    unfold remove_image. rewrite (bind_Ret _ _ _ _ _ Hpre).
    typed Hin. typed Hraw. typed Hno. done.
  - intros st st1 raw answer rest Hpre Hin Hraw Hno. unfold proceed in Hno.
    unfold remove_container. rewrite (bind_Ret _ _ _ _ _ Hpre).
    typed Hin. typed Hraw. typed Hno. done.
Qed.

(** C8, as the code has it.  When the engine call of a listing exits with
    status zero and its output, which is text, is not blank, the operation
    prints that output stripped of the whitespace at its two ends, and of
    nothing else. *)
Theorem listing_printed_stripped :
  (forall st c w',
      lookup (world st) docker = None ->
      child (world st) true
            [docker; py "images"; py "--format"; images_format] = (c, w') ->
      decodable c = true ->
      returncode c = 0%Z ->
      nonempty (strip (stdout c)) = true ->
      list_images st =
        (Ret tt,
         {| stdin := skipn (consumed c) (stdin st);
            events := events st
                      ++ [Printed (nl ++ py "📦 IMÁGENES DOCKER DISPONIBLES:");
                          Printed (times (py "-") 80);
                          Subprocess true
                            [docker; py "images"; py "--format"; images_format]
                            (Exited c);
                          Printed (strip (stdout c))];
            world := w' |}))
  /\ (forall all_containers st c w',
        lookup (world st) docker = None ->
        child (world st) true (list_containers_cmd all_containers) = (c, w') ->
        decodable c = true ->
        returncode c = 0%Z ->
        nonempty (strip (stdout c)) = true ->
        list_containers all_containers st =
          (Ret tt,
           {| stdin := skipn (consumed c) (stdin st);
              events := events st
                        ++ [Printed (nl ++ py "🐳 "
                                     ++ (if all_containers
                                         then py "TODOS LOS CONTENEDORES"
                                         else py "CONTENEDORES ACTIVOS")
                                     ++ py ":");
                            Printed (times (py "-") 100);
                            Subprocess true (list_containers_cmd all_containers)
                              (Exited c);
                            Printed (strip (stdout c))];
              world := w' |}))
  /\ (forall s,
        exists l r,
          s = l ++ strip s ++ r
          /\ forallb isspace l = true /\ forallb isspace r = true).
Proof.
  split; [| split].
  - intros st c w' Hl Hc Hd Hz Hout. unfold list_images. steps Hl.
    erewrite bind_Ret
      by (apply run_command_ok; cbn [world]; eassumption).
    cbn [truthy text_of]. rewrite Hout. done.
  - intros all_containers st c w' Hl Hc Hd Hz Hout. unfold list_containers.
    steps Hl.
    assert (Hcmd : exists args, list_containers_cmd all_containers = docker :: args)
      by (destruct all_containers; eexists; reflexivity).
    destruct Hcmd as (args & Hcmd). rewrite Hcmd in *.
    erewrite bind_Ret
      by (apply run_command_ok; cbn [world]; eassumption).
    cbn [truthy text_of]. rewrite Hout. done.
  - exact strip_split.
Qed.

(* ===================================================================== *)
(** * The session *)
(* ===================================================================== *)

Lemma bind_assoc {A B C} (m : M A) (f : A -> M B) (g : B -> M C) st :
  bind (bind m f) g st = bind m (fun a => bind (f a) g) st.
Proof. unfold bind. destruct (m st) as [[a | e] st1]; reflexivity. Qed.

Lemma prints_only_print s : prints_only (print s).
Proof.
  intros st. cbn [print fst snd log stdin world events].
  rewrite commands_app. cbn [commands]. rewrite app_nil_r. auto.
Qed.

Lemma prints_only_seq m k :
  prints_only m -> prints_only k -> prints_only (m ;; k).
Proof.
  intros Hm Hk st. unfold bind. destruct (Hm st) as (Hr & Hs & Hw & Hc).
  destruct (m st) as [r st1]. cbn [fst snd] in *. subst r.
  destruct (Hk st1) as (Hr' & Hs' & Hw' & Hc').
  repeat split; congruence.
Qed.

(** Rendering a menu prints and does nothing else. *)
Lemma render_prints m : prints_only (render m).
Proof.
  destruct m; cbn [render];
    unfold show_header, show_main_menu, show_image_menu,
      show_container_menu, show_system_menu;
    repeat first [ apply prints_only_print | apply prints_only_seq ].
  intros st. cbn [ret fst snd]. auto.
Qed.

(** C9.  In each of the four menus, a selection that is none of the menu's
    option codes, once the operator has acknowledged it with Enter, leaves
    the session in the same menu: after the menu text the log holds the
    selection prompt, the one line "Opción inválida" and the pause prompt,
    no engine call; the world is untouched. *)
Theorem unrecognized_option_is_noop m st raw ack rest :
  m <> Exit ->
  stdin st = Line raw :: Line ack :: rest ->
  ~ In (strip raw) (options m) ->
  iteration m st =
    (Ret m,
     {| stdin := rest;
        events := events (snd (render m st))
                  ++ [Prompted select_prompt; Printed invalid_option;
                      Prompted continue_prompt];
        world := world st |})
  /\ commands (events (snd (render m st))) = commands (events st).
Proof.
  intros Hm Hin Hnot.
  assert (Hno : forall o, In o (options m) -> eqb_str (strip raw) o = false).
  { intros o Ho. apply eqb_str_neq. intros E. apply Hnot. rewrite E. exact Ho. }
  destruct (render_prints m st) as (Hret & Hkeys & Hworld & Hcmds).
  split; [| exact Hcmds].
  rewrite Hin in Hkeys. rewrite <- Hworld.
  assert (Hshown : render m st = (Ret tt, snd (render m st)))
    by (rewrite <- Hret; apply surjective_pairing).
  remember (snd (render m st)) as shown eqn:Eshown. clear Eshown Hret Hworld.
  destruct m; [| | | | contradiction];
    cbn [options] in Hno; cbn [iteration];
    [ unfold main_menu; rewrite <- bind_assoc
    | unfold handle_image_menu
    | unfold handle_container_menu
    | unfold handle_system_menu ];
    cbn [render] in Hshown;
    rewrite (bind_Ret _ _ _ _ _ Hshown);
    erewrite input_bind by exact Hkeys;
    cbv zeta;
    repeat match goal with
           | |- context [eqb_str (strip raw) ?o] =>
               rewrite (Hno o) by (cbn [In]; auto 15)
           end;
    cbv beta iota; done.
Qed.

(** C10, as the code has it.  A captured child that exits with status
    zero and, on streams that are both text, prints nothing but whitespace
    makes [run_command] return the empty string, which is false; and each
    of the eight operations that test the result of a captured call then
    prints its failure line, although the engine succeeded: the two
    listings, run-container, start, stop, restart, and the two confirmed
    removals.  So in the log of every operation, each such silent success
    is followed at once by a failure line. *)
Theorem silent_success_reported :
  (forall prog args st c w',
      lookup (world st) prog = None ->
      child (world st) true (prog :: args) = (c, w') ->
      decodable c = true ->
      returncode c = 0%Z ->
      strip (stdout c) = [] ->
      run_command (prog :: args) st =
        (Ret (Some []),
         {| stdin := skipn (consumed c) (stdin st);
            events := events st ++ [Subprocess true (prog :: args) (Exited c)];
            world := w' |}))
  /\ truthy (Some []) = false
  /\ (forall st c w',
        lookup (world st) docker = None ->
        child (world st) true
              [docker; py "images"; py "--format"; images_format] = (c, w') ->
        decodable c = true ->
        returncode c = 0%Z ->
        strip (stdout c) = [] ->
        list_images st =
          (Ret tt,
           {| stdin := skipn (consumed c) (stdin st);
              events := events st
                        ++ [Printed (nl ++ py "📦 IMÁGENES DOCKER DISPONIBLES:");
                            Printed (times (py "-") 80);
                            Subprocess true
                              [docker; py "images"; py "--format"; images_format]
                              (Exited c);
                            Printed (py "No se pudieron listar las imágenes")];
              world := w' |}))
  /\ (forall all_containers st c w',
        lookup (world st) docker = None ->
        child (world st) true (list_containers_cmd all_containers) = (c, w') ->
        decodable c = true ->
        returncode c = 0%Z ->
        strip (stdout c) = [] ->
        list_containers all_containers st =
          (Ret tt,
           {| stdin := skipn (consumed c) (stdin st);
              events := events st
                        ++ [Printed (nl ++ py "🐳 "
                                     ++ (if all_containers
                                         then py "TODOS LOS CONTENEDORES"
                                         else py "CONTENEDORES ACTIVOS")
                                     ++ py ":");
                            Printed (times (py "-") 100);
                            Subprocess true (list_containers_cmd all_containers)
                              (Exited c);
                            Printed (py "No se pudieron listar los contenedores")];
              world := w' |}))
  /\ (forall st raw_image raw_name raw_port rest c w',
        stdin st = Line raw_image :: Line raw_name :: Line raw_port :: rest ->
        nonempty (strip raw_image) = true ->
        lookup (world st) docker = None ->
        child (world st) true
              (run_container_cmd (strip raw_image) (strip raw_name)
                 (strip raw_port))
          = (c, w') ->
        decodable c = true ->
        returncode c = 0%Z ->
        strip (stdout c) = [] ->
        run_container st =
          (Ret tt,
           {| stdin := skipn (consumed c) rest;
              events := events st
                        ++ [Printed (nl ++ py "🚀 EJECUTAR CONTENEDOR");
                            Prompted (py "Nombre de la imagen: ");
                            Prompted (py "Nombre del contenedor (opcional): ");
                            Prompted (py "Mapeo de puertos (ej: 8080:80, opcional): ");
                            Subprocess true
                              (run_container_cmd (strip raw_image)
                                 (strip raw_name) (strip raw_port))
                              (Exited c);
                            Printed (py "❌ Error al iniciar el contenedor")];
              world := w' |}))
  /\ misreports start_container
       (nl ++ py "▶️ INICIAR CONTENEDOR")
       (py "ID o nombre del contenedor a iniciar: ")
       (fun id => [docker; py "start"; id])
       (fun id => py "❌ Error al iniciar el contenedor " ++ id)
  /\ misreports stop_container
       (nl ++ py "⏹️ DETENER CONTENEDOR")
       (py "ID o nombre del contenedor a detener: ")
       (fun id => [docker; py "stop"; id])
       (fun id => py "❌ Error al detener el contenedor " ++ id)
  /\ misreports restart_container
       (nl ++ py "🔄 REINICIAR CONTENEDOR")
       (py "ID o nombre del contenedor a reiniciar: ")
       (fun id => [docker; py "restart"; id])
       (fun id => py "❌ Error al reiniciar el contenedor " ++ id)
  /\ (forall st st1 raw answer rest c w',
        list_images st = (Ret tt, st1) ->
        stdin st1 = Line raw :: Line answer :: rest ->
        nonempty (strip raw) = true ->
        proceed answer = true ->
        lookup (world st1) docker = None ->
        child (world st1) true [docker; py "rmi"; strip raw] = (c, w') ->
        decodable c = true ->
        returncode c = 0%Z ->
        strip (stdout c) = [] ->
        remove_image st =
          (Ret tt,
           {| stdin := skipn (consumed c) rest;
              events := events st1
                        ++ [Printed (nl ++ py "🗑️ ELIMINAR IMAGEN");
                            Prompted (py "Ingresa el ID o nombre de la imagen a eliminar: ");
                            Prompted (py "¿Estás seguro de eliminar la imagen "
                                      ++ strip raw ++ py "? (s/N): ");
                            Subprocess true [docker; py "rmi"; strip raw]
                              (Exited c);
                            Printed (py "❌ Error al eliminar la imagen "
                                     ++ strip raw)];
              world := w' |}))
  /\ (forall st st1 raw answer rest c w',
        list_containers true st = (Ret tt, st1) ->
        stdin st1 = Line raw :: Line answer :: rest ->
        nonempty (strip raw) = true ->
        proceed answer = true ->
        lookup (world st1) docker = None ->
        child (world st1) true [docker; py "rm"; py "-f"; strip raw] = (c, w') ->
        decodable c = true ->
        returncode c = 0%Z ->
        strip (stdout c) = [] ->
        remove_container st =
          (Ret tt,
           {| stdin := skipn (consumed c) rest;
              events := events st1
                        ++ [Printed (nl ++ py "🗑️ ELIMINAR CONTENEDOR");
                            Prompted (py "ID o nombre del contenedor a eliminar: ");
                            Prompted (py "¿Estás seguro de eliminar el contenedor "
                                      ++ strip raw ++ py "? (s/N): ");
                            Subprocess true [docker; py "rm"; py "-f"; strip raw]
                              (Exited c);
                            Printed (py "❌ Error al eliminar el contenedor "
                                     ++ strip raw)];
              world := w' |}))
  /\ (forall op st,
        exists evs,
          events (snd (perform op st)) = events st ++ evs
          /\ answered evs = true).
Proof.
  assert (Hsilent : forall prog args st c w',
             lookup (world st) prog = None ->
             child (world st) true (prog :: args) = (c, w') ->
             decodable c = true ->
             returncode c = 0%Z ->
             strip (stdout c) = [] ->
             run_command (prog :: args) st =
               (Ret (Some []),
                {| stdin := skipn (consumed c) (stdin st);
                   events := events st
                             ++ [Subprocess true (prog :: args) (Exited c)];
                   world := w' |})).
  { intros prog args st c w' Hl Hc Hd Hz Hout. rewrite <- Hout.
    apply run_command_ok; assumption. }
  split; [exact Hsilent | split; [reflexivity |]].
  split; [| split; [| split; [| split; [| split; [| split; [| split; [| split]]]]]]].
  - intros st c w' Hl Hc Hd Hz Hout. unfold list_images. steps Hl.
    erewrite bind_Ret by (apply Hsilent; cbn [world]; eassumption).
    cbn [truthy nonempty]. printed.
  - intros all_containers st c w' Hl Hc Hd Hz Hout. unfold list_containers.
    steps Hl.
    assert (Hcmd : exists args, list_containers_cmd all_containers = docker :: args)
      by (destruct all_containers; eexists; reflexivity).
    destruct Hcmd as (args & Hcmd). rewrite Hcmd in *.
    erewrite bind_Ret by (apply Hsilent; cbn [world]; eassumption).
    cbn [truthy nonempty]. printed.
  - intros st raw_image raw_name raw_port rest c w' Hin Himage Hl Hc Hd Hz Hout.
    unfold run_container. steps Hin. rewrite Himage. cbn [negb].
    assert (Hcmd : exists args,
               run_container_cmd (strip raw_image) (strip raw_name)
                 (strip raw_port) = docker :: args)
      by (unfold run_container_cmd;
          destruct (nonempty (strip raw_name)), (nonempty (strip raw_port));
          eexists; reflexivity).
    destruct Hcmd as (args & Hcmd). rewrite Hcmd in *.
    erewrite bind_Ret by (apply Hsilent; cbn [world]; eassumption).
    cbn [truthy nonempty]. printed.
  - intros st st1 raw rest c w' Hpre Hin Hraw Hl Hc Hd Hz Hout.
    unfold start_container.
    rewrite (bind_Ret _ _ _ _ _ Hpre). steps Hin. rewrite Hraw. cbn [negb].
    erewrite bind_Ret by (apply Hsilent; cbn [world]; eassumption).
    cbn [truthy nonempty]. printed.
  - intros st st1 raw rest c w' Hpre Hin Hraw Hl Hc Hd Hz Hout.
    unfold stop_container.
    rewrite (bind_Ret _ _ _ _ _ Hpre). steps Hin. rewrite Hraw. cbn [negb].
    erewrite bind_Ret by (apply Hsilent; cbn [world]; eassumption).
    cbn [truthy nonempty]. printed.
  - intros st st1 raw rest c w' Hpre Hin Hraw Hl Hc Hd Hz Hout.
    unfold restart_container.
    rewrite (bind_Ret _ _ _ _ _ Hpre). steps Hin. rewrite Hraw. cbn [negb].
    erewrite bind_Ret by (apply Hsilent; cbn [world]; eassumption).
    cbn [truthy nonempty]. printed.
  - intros st st1 raw answer rest c w' Hpre Hin Hraw Hgo Hl Hc Hd Hz Hout.
    unfold proceed in Hgo. unfold remove_image.
    rewrite (bind_Ret _ _ _ _ _ Hpre). steps Hin. rewrite Hraw. cbn [negb].
    steps Hin. rewrite Hgo.
    erewrite bind_Ret by (apply Hsilent; cbn [world]; eassumption).
    cbn [truthy nonempty]. printed.
  - intros st st1 raw answer rest c w' Hpre Hin Hraw Hgo Hl Hc Hd Hz Hout.
    unfold proceed in Hgo. unfold remove_container.
    rewrite (bind_Ret _ _ _ _ _ Hpre). steps Hin. rewrite Hraw. cbn [negb].
    steps Hin. rewrite Hgo.
    erewrite bind_Ret by (apply Hsilent; cbn [world]; eassumption).
    cbn [truthy nonempty]. printed.
  - intros op st. exact (perform_reports op st).
Qed.

(** Decides the comparisons of two literal option codes. *)
Ltac literal_tests :=
  repeat match goal with
         | |- context [eqb_str (py ?a) (py ?b)] =>
             let v := eval vm_compute in (eqb_str (py a) (py b)) in
             let E := fresh "E" in
             assert (E : eqb_str (py a) (py b) = v)
               by (vm_compute; reflexivity);
             rewrite E; clear E
         end;
  cbv beta iota.

(** The head of every pass: the menu is rendered and the selection read. *)
Lemma selection_read {B} m (k : str -> M B) st raw rest :
  stdin st = Line raw :: rest ->
  (render m ;; raw <- input select_prompt ;; k raw) st =
    k raw {| stdin := rest;
             events := events (snd (render m st)) ++ [Prompted select_prompt];
             world := world st |}.
Proof.
  intros Hin.
  destruct (render_prints m st) as (Hret & Hkeys & Hworld & _).
  rewrite Hin in Hkeys. rewrite <- Hworld.
  assert (Hshown : render m st = (Ret tt, snd (render m st)))
    by (rewrite <- Hret; apply surjective_pairing).
  rewrite (bind_Ret _ _ _ _ _ Hshown).
  erewrite input_bind by exact Hkeys. reflexivity.
Qed.

(** The loops from an exit state stay there. *)
Lemma passes_exit n st : passes n Exit st = Some (Exit, st).
Proof. induction n as [| n IH]; [reflexivity | exact IH]. Qed.

(** After [n] passes that did not raise, the loops go on from the menu and
    the state reached. *)
Lemma passes_session n fuel m0 st0 m st :
  passes n m0 st0 = Some (m, st) ->
  m <> Exit ->
  session (n + fuel) m0 st0 = session fuel m st.
Proof.
  revert m0 st0. induction n as [| n IH]; intros m0 st0 Hp Hm.
  - injection Hp as <- <-. reflexivity.
  - destruct m0;
      try (cbn [passes] in Hp; cbn [Nat.add session];
           destruct (iteration _ st0) as [[m' | e] st'];
           [exact (IH _ _ Hp Hm) | discriminate Hp]).
    rewrite passes_exit in Hp. injection Hp as <- _. contradiction.
Qed.

(** C4, as the code has it.  No operation turns a non-zero exit into an
    exception.  But when the system cannot start the program, the log of the
    operation shows the failed attempt and the operation's result is the
    operating system's error itself, raised: the operation does not map it
    to a failure of its own.  The pass through the menu that dispatched the
    operation raises what the operation raised, with nothing printed in
    between; and wherever in the session that pass comes, after any number
    of passes that returned, the error leaves the loops and it is [run], at
    the outermost level, that catches it, prints one "Error inesperado"
    line and returns. *)
Theorem spawn_fault_reaches_session :
  (forall op st,
      exists evs,
        events (snd (perform op st)) = events st ++ evs
        /\ (forall e, fst (perform op st) = Raise e -> engine_failure e = false)
        /\ (forall capture cmd k,
              In (Subprocess capture cmd (SpawnFailed k)) evs ->
              fst (perform op st) = Raise (OSError k)))
  /\ (forall m st raw rest op e st',
        stdin st = Line raw :: rest ->
        In (strip raw, op) (leaves m) ->
        perform op
          {| stdin := rest;
             events := events (snd (render m st)) ++ [Prompted select_prompt];
             world := world st |} = (Raise e, st') ->
        iteration m st = (Raise e, st'))
  /\ (forall n fuel st m st1 k st',
        passes n MainMenu st = Some (m, st1) ->
        iteration m st1 = (Raise (OSError k), st') ->
        n < fuel ->
        run fuel st =
          Some (Ret tt,
                log (Printed (nl ++ py "❌ Error inesperado: "
                              ++ describe (OSError k))) st')).
Proof.
  split; [intros op st; exact (perform_faults_pass op st) | split].
  - intros m st raw rest op e st' Hin Hleaf Hop.
    destruct m; cbn [leaves In] in Hleaf; try contradiction;
      cbn [iteration];
      [ unfold handle_image_menu;
        rewrite (selection_read ImageMenu _ st raw rest Hin)
      | unfold handle_container_menu;
        rewrite (selection_read ContainerMenu _ st raw rest Hin)
      | unfold handle_system_menu;
        rewrite (selection_read SystemMenu _ st raw rest Hin) ];
      repeat (destruct Hleaf as [Hleaf | Hleaf];
              [injection Hleaf as Hraw <- |]);
      try contradiction;
      cbv zeta; rewrite <- Hraw; literal_tests; rewrite bind_assoc;
      apply bind_Raise; exact Hop.
  - intros n fuel st m st1 k st' Hp Hit Hfuel.
    assert (Hm : m <> Exit) by (intros ->; discriminate Hit).
    replace fuel with (n + S (fuel - S n)) by lia.
    unfold run. rewrite (passes_session _ _ _ _ _ _ Hp Hm).
    destruct m; [| | | | contradiction]; cbn [session]; rewrite Hit;
      reflexivity.
Qed.

(* ===================================================================== *)
(** * Further properties: the executor and the start-up probe *)
(* ===================================================================== *)

(** X1.  The Confirmation Gate lets through exactly the answers that are,
    once stripped, the single letter [s] or [S]: every other answer, a
    longer word such as [si] included, declines. *)
Theorem proceed_exactly_s answer :
  proceed answer = true <-> strip answer = py "s" \/ strip answer = py "S".
Proof.
  unfold proceed. rewrite eqb_str_eq.
  change (py "s") with [115%N]. change (py "S") with [83%N].
  destruct (strip answer) as [| c [| d rest]]; cbn [lower map].
  - split; [discriminate | intros [H | H]; discriminate].
  - unfold lower_char.
    destruct ((65 <=? c) && (c <=? 90))%N eqn:Hup; split.
    + intros H. injection H as H. right. f_equal. lia.
    + intros [H | H]; injection H as ->; [discriminate Hup | reflexivity].
    + intros H. injection H as ->. left. reflexivity.
    + intros [H | H]; injection H as ->; [reflexivity | discriminate Hup].
  - split; [discriminate | intros [H | H]; discriminate].
Qed.

Lemma interactive_started prog args st c w' :
  lookup (world st) prog = None ->
  child (world st) false (prog :: args) = (c, w') ->
  run_command_interactive (prog :: args) st =
    (Ret (returncode c =? 0)%Z,
     {| stdin := skipn (consumed c) (stdin st);
        events := events st ++ [Subprocess false (prog :: args) (Exited c)];
        world := w' |}).
Proof.
  intros Hl Hc.
  destruct (run_command_interactive_cases (prog :: args) st)
    as [(E & _) | [(p & a & k & E & Hl' & _)
                  | (p & a & c' & w'' & E & _ & Hc' & Hrun)]].
  - discriminate E.
  - injection E as <- <-. rewrite Hl in Hl'. discriminate Hl'.
  - rewrite Hc in Hc'. injection Hc' as <- <-. exact Hrun.
Qed.

(** X2.  In interactive mode the executor's result is the exit status
    test.  Once the program has started it returns [True] for status zero
    and [False] for any other status; whenever it returns, that is what it
    returns, and the log has gained the call and no line of the
    executor's own; and what it raises is never the non-zero exit. *)
Theorem interactive_result_is_status :
  (forall prog args st c w',
      lookup (world st) prog = None ->
      child (world st) false (prog :: args) = (c, w') ->
      run_command_interactive (prog :: args) st =
        (Ret (returncode c =? 0)%Z,
         {| stdin := skipn (consumed c) (stdin st);
            events := events st ++ [Subprocess false (prog :: args) (Exited c)];
            world := w' |}))
  /\ (forall cmd st b st',
        run_command_interactive cmd st = (Ret b, st') ->
        exists c,
          events st' = events st ++ [Subprocess false cmd (Exited c)]
          /\ b = (returncode c =? 0)%Z)
  /\ (forall cmd st e st',
        run_command_interactive cmd st = (Raise e, st') ->
        engine_failure e = false).
Proof.
  split; [exact interactive_started | split].
  - intros cmd st b st' H.
    destruct (run_command_interactive_cases cmd st)
      as [(_ & E) | [(p & a & k & _ & _ & E) | (p & a & c & w' & _ & _ & _ & E)]];
      rewrite E in H; try discriminate H.
    injection H as <- <-. exists c. split; reflexivity.
  - intros cmd st e st' H.
    destruct (run_command_interactive_cases cmd st)
      as [(_ & E) | [(p & a & k & _ & _ & E) | (p & a & c & w' & _ & _ & _ & E)]];
      rewrite E in H; try discriminate H; injection H as <- _; reflexivity.
Qed.






(* ===================================================================== *)
(** * Further properties: what every operation keeps *)
(* ===================================================================== *)


Lemma well_formed_calls_here {A} (st st' : St) (r : Res A) evs :
  events st' = events st ++ evs ->
  forallb (fun call => well_formed (snd call)) (commands evs) = true ->
  r <> Raise IndexError ->
  calls_well_formed st r st'.
Proof. intros E W N. exists evs. auto. Qed.

Ltac tidy_now evs :=
  apply (well_formed_calls_here _ _ _ evs);
  [ cbn [events log]; rewrite <- ?app_assoc, ?app_nil_r; reflexivity
  | cbn [commands forallb snd]; rewrite ?andb_true_r; try assumption;
    try reflexivity
  | discriminate ].

Lemma tidy_ret {A} (a : A) : sat (ret a) calls_well_formed.
Proof. intros st. cbn [ret fst snd]. tidy_now (@nil Event). Qed.

Lemma tidy_print s : sat (print s) calls_well_formed.
Proof. intros st. cbn [print fst snd]. tidy_now [Printed s]. Qed.

Lemma tidy_input p : sat (input p) calls_well_formed.
Proof.
  intros st. unfold input.
  destruct (stdin st) as [| [line |] rest]; cbn [fst snd];
    tidy_now [Prompted p].
Qed.

Lemma tidy_exists p : sat (os_path_exists p) calls_well_formed.
Proof. intros st. cbn [os_path_exists fst snd]. tidy_now (@nil Event). Qed.

Lemma tidy_interactive cmd :
  well_formed cmd = true -> sat (run_command_interactive cmd) calls_well_formed.
Proof.
  intros Hwf st.
  destruct (run_command_interactive_cases cmd st)
    as [(-> & E) | [(prog & args & k & -> & _ & E)
                   | (prog & args & c & w' & -> & _ & _ & E)]];
    [discriminate Hwf | rewrite E ..]; cbn [fst snd].
  - tidy_now [Subprocess false (prog :: args) (SpawnFailed k)].
  - tidy_now [Subprocess false (prog :: args) (Exited c)].
Qed.

Lemma tidy_report cmd (ok : option str -> str) err :
  well_formed cmd = true ->
  sat (result <- run_command cmd ;;
       if truthy result then print (ok result) else print err)
      calls_well_formed.
Proof.
  intros Hwf st. unfold bind.
  destruct (run_command_cases cmd st)
    as [(-> & E) | [(prog & args & k & -> & _ & E)
                   | [(prog & args & c & w' & -> & _ & _ & _ & _ & E)
                     | [(prog & args & c & w' & -> & _ & _ & _ & _ & E)
                       | (prog & args & c & w' & -> & _ & _ & _ & E)]]]];
    [discriminate Hwf | rewrite E ..]; cbn [fst snd].
  - tidy_now [Subprocess true (prog :: args) (SpawnFailed k)].
  - destruct (truthy (Some (strip (stdout c)))); cbn [print fst snd].
    + tidy_now [Subprocess true (prog :: args) (Exited c);
                Printed (ok (Some (strip (stdout c))))].
    + tidy_now [Subprocess true (prog :: args) (Exited c); Printed err].
  - cbn [truthy print fst snd].
    tidy_now [Subprocess true (prog :: args) (Exited c);
              Printed (py "❌ Error ejecutando comando: " ++ strip (stderr c));
              Printed err].
  - tidy_now [Subprocess true (prog :: args) (Exited c)].
Qed.

Lemma tidy_bind {A B} (m : M A) (f : A -> M B) :
  sat m calls_well_formed -> (forall a, sat (f a) calls_well_formed) ->
  sat (bind m f) calls_well_formed.
Proof.
  apply (sat_bind (fun A => @calls_well_formed A)).
  - intros A' B' st a st1 r st2 (evs1 & E1 & W1 & _) (evs2 & E2 & W2 & N2).
    exists (evs1 ++ evs2). split; [| split].
    + rewrite E2, E1, app_assoc. reflexivity.
    + rewrite commands_app, forallb_app, W1, W2. reflexivity.
    + exact N2.
  - intros A' B' st e st1 (evs & E & W & N). exists evs.
    split; [exact E | split; [exact W |]].
    intros H. apply N. injection H as ->. reflexivity.
Qed.

(** The vectors the code builds are well formed once the fields that go
    into them are known to be non-empty. *)
Ltac well_formed_vector :=
  cbv zeta;
  unfold run_container_cmd, list_containers_cmd, list_insert;
  repeat match goal with
         | |- context [if nonempty ?x then _ else _] =>
             destruct (nonempty x) eqn:?
         | |- context [if ?b then _ else _] => destruct b
         end;
  cbn [well_formed forallb app firstn skipn];
  repeat match goal with
         | H : nonempty _ = true |- _ => rewrite H
         end;
  reflexivity.

Ltac tidy_step :=
  cbv zeta;
  lazymatch goal with
  | |- sat (bind (run_command _) _) _ =>
      refine (tidy_report _ (fun result => _) _ _); well_formed_vector
  | |- sat (run_command_interactive _) _ =>
      apply tidy_interactive; well_formed_vector
  | |- sat (print _) _ => apply tidy_print
  | |- sat (input _) _ => apply tidy_input
  | |- sat (ret _) _ => apply tidy_ret
  | |- sat (os_path_exists _) _ => apply tidy_exists
  | |- sat (bind _ _) _ => apply tidy_bind; [ | intro ]
  | |- sat (if negb (nonempty ?x) then _ else _) _ =>
      destruct (nonempty x) eqn:?; cbn [negb]
  | |- sat (if ?b then _ else _) _ => destruct b
  end.

Lemma tidy_list_images : sat list_images calls_well_formed.
Proof. unfold list_images. repeat tidy_step. Qed.

Lemma tidy_list_containers b : sat (list_containers b) calls_well_formed.
Proof. unfold list_containers. repeat tidy_step. Qed.

Ltac tidy_operation :=
  repeat lazymatch goal with
         | |- sat list_images _ => apply tidy_list_images
         | |- sat (list_containers _) _ => apply tidy_list_containers
         | |- _ => tidy_step
         end.

Lemma perform_tidy op : sat (perform op) calls_well_formed.
Proof.
  destruct op; cbn [perform].
  - apply tidy_list_images.
  - unfold pull_image. tidy_operation.
  - unfold build_image. tidy_operation.
  - unfold remove_image. tidy_operation.
  - apply tidy_list_containers.
  - unfold run_container. tidy_operation.
  - unfold start_container. tidy_operation.
  - unfold stop_container. tidy_operation.
  - unfold restart_container. tidy_operation.
  - unfold remove_container. tidy_operation.
  - unfold view_logs. tidy_operation.
  - unfold exec_container. tidy_operation.
  - unfold system_info. tidy_operation.
  - unfold disk_usage. tidy_operation.
  - unfold system_cleanup. tidy_operation.
Qed.

(** X5.  Whatever the operator types and whatever the world does, every
    argument vector an operation hands to [subprocess.run] begins with
    [docker] and contains no empty token; in particular none is empty, and
    no operation ends in the [IndexError] of an empty vector. *)
Theorem commands_are_well_formed op st :
  exists evs,
    events (snd (perform op st)) = events st ++ evs
    /\ (forall capture cmd,
          In (capture, cmd) (commands evs) ->
          (exists args, cmd = docker :: args) /\ ~ In [] cmd)
    /\ fst (perform op st) <> Raise IndexError.
Proof.
  destruct (perform_tidy op st) as (evs & E & W & N).
  exists evs. split; [exact E | split; [| exact N]].
  intros capture cmd Hin. rewrite forallb_forall in W.
  specialize (W _ Hin). cbn [snd] in W. unfold well_formed in W.
  destruct cmd as [| prog args]; [discriminate W |].
  apply andb_true_iff in W as [Hprog Htokens]. split.
  - exists args. apply eqb_str_eq in Hprog. rewrite Hprog. reflexivity.
  - intros Hempty. rewrite forallb_forall in Htokens.
    specialize (Htokens _ Hempty). discriminate Htokens.
Qed.










(* ===================================================================== *)
(** * Further properties: what the operations report *)
(* ===================================================================== *)

(** X10.  The three operations that run the engine on the terminal and
    look at the result (pull, build, system prune) report by the exit
    status alone: the success line after status zero, the failure line
    after any other status, whatever the engine wrote. *)
Theorem interactive_outcome_reported :
  (forall st raw rest c w',
      stdin st = Line raw :: rest ->
      nonempty (strip raw) = true ->
      lookup (world st) docker = None ->
      child (world st) false [docker; py "pull"; strip raw] = (c, w') ->
      pull_image st =
        (Ret tt,
         {| stdin := skipn (consumed c) rest;
            events := events st
                      ++ [Printed (nl ++ py "⬇️ DESCARGAR IMAGEN");
                          Prompted (py "Ingresa el nombre de la imagen (ej: nginx:latest): ");
                          Printed (py "Descargando imagen: " ++ strip raw ++ py "...");
                          Subprocess false [docker; py "pull"; strip raw] (Exited c);
                          Printed
                            (if (returncode c =? 0)%Z
                             then py "✅ Imagen " ++ strip raw
                                  ++ py " descargada exitosamente"
                             else py "❌ Error al descargar la imagen "
                                  ++ strip raw)];
            world := w' |}))
  /\ (forall st raw_path raw rest c w',
        stdin st = Line raw_path :: Line raw :: rest ->
        let dockerfile_path :=
          if nonempty (strip raw_path) then strip raw_path else py "." in
        nonempty (strip raw) = true ->
        path_exists (world st) (dockerfile_path ++ py "/Dockerfile") = true ->
        lookup (world st) docker = None ->
        child (world st) false
              [docker; py "build"; py "-t"; strip raw; dockerfile_path] = (c, w') ->
        build_image st =
          (Ret tt,
           {| stdin := skipn (consumed c) rest;
              events := events st
                        ++ [Printed (nl ++ py "🔨 CONSTRUIR IMAGEN");
                            Prompted (py "Ruta del directorio con Dockerfile (. para actual): ");
                            Prompted (py "Nombre para la nueva imagen: ");
                            Printed (py "Construyendo imagen " ++ strip raw ++ py "...");
                            Subprocess false
                              [docker; py "build"; py "-t"; strip raw; dockerfile_path]
                              (Exited c);
                            Printed
                              (if (returncode c =? 0)%Z
                               then py "✅ Imagen " ++ strip raw
                                    ++ py " construida exitosamente"
                               else py "❌ Error al construir la imagen "
                                    ++ strip raw)];
              world := w' |}))
  /\ (forall st answer rest c w',
        stdin st = Line answer :: rest ->
        proceed answer = true ->
        lookup (world st) docker = None ->
        child (world st) false
              [docker; py "system"; py "prune"; py "-a"; py "-f"] = (c, w') ->
        system_cleanup st =
          (Ret tt,
           {| stdin := skipn (consumed c) rest;
              events := events st
                        ++ [Printed (nl ++ py "🧹 LIMPIEZA DEL SISTEMA");
                            Printed (py "Esto eliminará:");
                            Printed (py "- Contenedores detenidos");
                            Printed (py "- Redes no utilizadas");
                            Printed (py "- Imágenes sin referencia");
                            Printed (py "- Caché de construcción");
                            Prompted (nl ++ py "¿Continuar con la limpieza? (s/N): ");
                            Subprocess false
                              [docker; py "system"; py "prune"; py "-a"; py "-f"]
                              (Exited c);
                            Printed
                              (if (returncode c =? 0)%Z
                               then py "✅ Limpieza completada"
                               else py "❌ Error durante la limpieza")];
              world := w' |})).
Proof.
  split; [| split].
  - intros st raw rest c w' Hin Hraw Hl Hc. unfold pull_image.
    steps Hin. rewrite Hraw. cbn [negb]. steps Hin.
    erewrite bind_Ret
      by (apply interactive_started; cbn [world]; eassumption).
    destruct (returncode c =? 0)%Z; printed.
  - intros st raw_path raw rest c w' Hin dockerfile_path Hraw Hfound Hl Hc.
    subst dockerfile_path. unfold build_image.
    steps Hin. rewrite Hraw. cbn [negb]. steps Hin. rewrite Hfound.
    cbn [negb]. steps Hin.
    erewrite bind_Ret
      by (apply interactive_started; cbn [world]; eassumption).
    destruct (returncode c =? 0)%Z; printed.
  - intros st answer rest c w' Hin Hgo Hl Hc. unfold proceed in Hgo.
    unfold system_cleanup. steps Hin. rewrite Hgo.
    erewrite bind_Ret
      by (apply interactive_started; cbn [world]; eassumption).
    destruct (returncode c =? 0)%Z; printed.
Qed.

(** X11.  Four operations run the engine on the terminal and drop the
    result: system info, disk usage, logs and exec.  Whatever the exit
    status, they return normally and the engine call is the last event of
    their log: a failure of the engine is not reported by the program. *)
Theorem interactive_result_discarded :
  (forall st c w',
      lookup (world st) docker = None ->
      child (world st) false [docker; py "system"; py "info"] = (c, w') ->
      system_info st =
        (Ret tt,
         {| stdin := skipn (consumed c) (stdin st);
            events := events st
                      ++ [Printed (nl ++ py "🔧 INFORMACIÓN DEL SISTEMA DOCKER:");
                          Printed (times (py "-") 50);
                          Subprocess false [docker; py "system"; py "info"]
                            (Exited c)];
            world := w' |}))
  /\ (forall st c w',
        lookup (world st) docker = None ->
        child (world st) false [docker; py "system"; py "df"] = (c, w') ->
        disk_usage st =
          (Ret tt,
           {| stdin := skipn (consumed c) (stdin st);
              events := events st
                        ++ [Printed (nl ++ py "💾 USO DE DISCO DOCKER:");
                            Printed (times (py "-") 40);
                            Subprocess false [docker; py "system"; py "df"]
                              (Exited c)];
              world := w' |}))
  /\ (forall st st1 raw rest c w',
        list_containers true st = (Ret tt, st1) ->
        stdin st1 = Line raw :: rest ->
        nonempty (strip raw) = true ->
        lookup (world st1) docker = None ->
        child (world st1) false
              [docker; py "logs"; py "--tail"; py "50"; strip raw] = (c, w') ->
        view_logs st =
          (Ret tt,
           {| stdin := skipn (consumed c) rest;
              events := events st1
                        ++ [Printed (nl ++ py "📋 VER LOGS");
                            Prompted (py "ID o nombre del contenedor: ");
                            Printed (nl ++ py "📋 Logs del contenedor "
                                     ++ strip raw ++ py ":");
                            Printed (times (py "-") 60);
                            Subprocess false
                              [docker; py "logs"; py "--tail"; py "50"; strip raw]
                              (Exited c)];
              world := w' |}))
  /\ (forall st st1 raw rest c w',
        list_containers false st = (Ret tt, st1) ->
        stdin st1 = Line raw :: rest ->
        nonempty (strip raw) = true ->
        lookup (world st1) docker = None ->
        child (world st1) false
              [docker; py "exec"; py "-it"; strip raw; py "/bin/bash"] = (c, w') ->
        exec_container st =
          (Ret tt,
           {| stdin := skipn (consumed c) rest;
              events := events st1
                        ++ [Printed (nl ++ py "💻 EJECUTAR COMANDO EN CONTENEDOR");
                            Prompted (py "ID o nombre del contenedor: ");
                            Printed (py "Iniciando shell interactivo en el contenedor...");
                            Subprocess false
                              [docker; py "exec"; py "-it"; strip raw; py "/bin/bash"]
                              (Exited c)];
              world := w' |})).
Proof.
  split; [| split; [| split]].
  - intros st c w' Hl Hc. unfold system_info. steps Hl.
    erewrite bind_Ret
      by (apply interactive_started; cbn [world]; eassumption).
    printed.
  - intros st c w' Hl Hc. unfold disk_usage. steps Hl.
    erewrite bind_Ret
      by (apply interactive_started; cbn [world]; eassumption).
    printed.
  - intros st st1 raw rest c w' Hpre Hin Hraw Hl Hc. unfold view_logs.
    rewrite (bind_Ret _ _ _ _ _ Hpre). steps Hin. rewrite Hraw.
    cbn [negb]. steps Hin.
    erewrite bind_Ret
      by (apply interactive_started; cbn [world]; eassumption).
    printed.
  - intros st st1 raw rest c w' Hpre Hin Hraw Hl Hc. unfold exec_container.
    rewrite (bind_Ret _ _ _ _ _ Hpre). steps Hin. rewrite Hraw.
    cbn [negb]. steps Hin.
    erewrite bind_Ret
      by (apply interactive_started; cbn [world]; eassumption).
    printed.
Qed.

(** X12.  When the engine starts the container, exits with status zero
    and prints something, as text, run-container shows the first twelve
    characters of the stripped output as the container's identifier, and at
    most twelve. *)
Theorem run_container_shows_short_id st raw_image raw_name raw_port rest c w' :
  stdin st = Line raw_image :: Line raw_name :: Line raw_port :: rest ->
  nonempty (strip raw_image) = true ->
  lookup (world st) docker = None ->
  child (world st) true
        (run_container_cmd (strip raw_image) (strip raw_name) (strip raw_port))
    = (c, w') ->
  decodable c = true ->
  returncode c = 0%Z ->
  nonempty (strip (stdout c)) = true ->
  run_container st =
    (Ret tt,
     {| stdin := skipn (consumed c) rest;
        events := events st
                  ++ [Printed (nl ++ py "🚀 EJECUTAR CONTENEDOR");
                      Prompted (py "Nombre de la imagen: ");
                      Prompted (py "Nombre del contenedor (opcional): ");
                      Prompted (py "Mapeo de puertos (ej: 8080:80, opcional): ");
                      Subprocess true
                        (run_container_cmd (strip raw_image) (strip raw_name)
                           (strip raw_port))
                        (Exited c);
                      Printed (py "✅ Contenedor iniciado con ID: "
                               ++ upto 12 (strip (stdout c)))];
        world := w' |})
  /\ length (upto 12 (strip (stdout c))) <= 12
  /\ (length (strip (stdout c)) <= 12 ->
      upto 12 (strip (stdout c)) = strip (stdout c)).
Proof.
  intros Hin Himage Hl Hc Hd Hz Hout. split; [| split].
  - unfold run_container. steps Hin. rewrite Himage. cbn [negb].
    assert (Hcmd : exists args,
               run_container_cmd (strip raw_image) (strip raw_name)
                 (strip raw_port) = docker :: args)
      by (unfold run_container_cmd;
          destruct (nonempty (strip raw_name)), (nonempty (strip raw_port));
          eexists; reflexivity).
    destruct Hcmd as (args & Hcmd). rewrite Hcmd in *.
    erewrite bind_Ret
      by (apply run_command_ok; cbn [world]; eassumption).
    cbn [truthy text_of]. rewrite Hout. printed.
  - unfold upto. apply firstn_le_length.
  - intros Hlen. unfold upto. apply firstn_all2. exact Hlen.
Qed.

Lemma grows_ret {A} (a : A) : sat (ret a) grows.
Proof. intros st. exists []. cbn [ret snd]. rewrite app_nil_r. reflexivity. Qed.

Lemma grows_print s : sat (print s) grows.
Proof. intros st. exists [Printed s]. reflexivity. Qed.

Lemma grows_input p : sat (input p) grows.
Proof.
  intros st. exists [Prompted p]. unfold input.
  destruct (stdin st) as [| [line |] rest]; reflexivity.
Qed.

Lemma grows_exists p : sat (os_path_exists p) grows.
Proof. intros st. exists []. cbn [os_path_exists snd]. rewrite app_nil_r. reflexivity. Qed.

Lemma grows_interactive cmd : sat (run_command_interactive cmd) grows.
Proof.
  intros st.
  destruct (run_command_interactive_cases cmd st)
    as [(-> & E) | [(prog & args & k & -> & _ & E)
                   | (prog & args & c & w' & -> & _ & _ & E)]];
    rewrite E; cbn [fst snd].
  - exists []. rewrite app_nil_r. reflexivity.
  - eexists. reflexivity.
  - eexists. reflexivity.
Qed.

Lemma grows_bind {A B} (m : M A) (f : A -> M B) :
  sat m grows -> (forall a, sat (f a) grows) -> sat (bind m f) grows.
Proof.
  apply (sat_bind (fun A => @grows A)).
  - intros A' B' st a st1 r st2 (evs1 & E1) (evs2 & E2).
    exists (evs1 ++ evs2). rewrite E2, E1, app_assoc. reflexivity.
  - intros A' B' st e st1 H. exact H.
Qed.

Lemma grows_captured cmd : sat (run_command cmd) grows.
Proof.
  intros st.
  destruct (run_command_cases cmd st)
    as [(-> & E) | [(prog & args & k & -> & _ & E)
                   | [(prog & args & c & w' & -> & _ & _ & _ & _ & E)
                     | [(prog & args & c & w' & -> & _ & _ & _ & _ & E)
                       | (prog & args & c & w' & -> & _ & _ & _ & E)]]]];
    rewrite E; cbn [fst snd].
  - exists []. rewrite app_nil_r. reflexivity.
  - eexists. reflexivity.
  - eexists. reflexivity.
  - eexists. reflexivity.
  - eexists. reflexivity.
Qed.

Ltac grows_step :=
  cbv zeta;
  lazymatch goal with
  | |- sat (run_command _) _ => apply grows_captured
  | |- sat (run_command_interactive _) _ => apply grows_interactive
  | |- sat (print _) _ => apply grows_print
  | |- sat (input _) _ => apply grows_input
  | |- sat (ret _) _ => apply grows_ret
  | |- sat (os_path_exists _) _ => apply grows_exists
  | |- sat (bind _ _) _ => apply grows_bind; [ | intro ]
  | |- sat (if ?b then _ else _) _ => destruct b
  end.

(** A listing hands its one command to the executor in every state. *)
Lemma list_images_commands st :
  commands (events (snd (list_images st))) =
    commands (events st)
    ++ [(true, [docker; py "images"; py "--format"; images_format])].
Proof.
  unfold list_images. steps st. rewrite report_commands.
  - cbn [events log]. rewrite !commands_app. cbn [commands].
    rewrite !app_nil_r. reflexivity.
  - discriminate.
  - intros r st0. apply (truth_report_quiet (fun r => text_of r)).
Qed.

Lemma list_containers_commands b st :
  commands (events (snd (list_containers b st))) =
    commands (events st) ++ [(true, list_containers_cmd b)].
Proof.
  unfold list_containers. steps st. rewrite report_commands.
  - cbn [events log]. rewrite !commands_app. cbn [commands].
    rewrite !app_nil_r. reflexivity.
  - destruct b; discriminate.
  - intros r st0. apply (truth_report_quiet (fun r => text_of r)).
Qed.

Lemma listed_first (listing : M unit) cmd (k : unit -> M unit) :
  (forall st,
      commands (events (snd (listing st))) = commands (events st) ++ [(true, cmd)]) ->
  (forall u, sat (k u) grows) ->
  forall st,
    exists later,
      commands (events (snd (bind listing k st))) =
        commands (events st) ++ (true, cmd) :: later.
Proof.
  intros Hlisting Hk st. specialize (Hlisting st). unfold bind.
  destruct (listing st) as [[u | e] st1]; cbn [snd] in *.
  - destruct (Hk u st1) as (evs & E). exists (commands evs).
    rewrite E, commands_app, Hlisting, <- app_assoc. reflexivity.
  - exists []. exact Hlisting.
Qed.

(** X13.  List before act.  In every state, the first thing each of these
    seven operations does with the engine is its listing, in captured mode
    and before any prompt: the images for remove-image, all containers for
    start, stop, restart, remove and logs, the running containers for
    exec.  Whatever else reaches the executor comes after. *)
Theorem listing_comes_first st :
  (exists later,
      commands (events (snd (remove_image st))) =
        commands (events st)
        ++ (true, [docker; py "images"; py "--format"; images_format]) :: later)
  /\ (forall op,
        In op [start_container; stop_container; restart_container;
               remove_container; view_logs] ->
        exists later,
          commands (events (snd (op st))) =
            commands (events st) ++ (true, list_containers_cmd true) :: later)
  /\ (exists later,
        commands (events (snd (exec_container st))) =
          commands (events st) ++ (true, list_containers_cmd false) :: later).
Proof.
  split; [| split].
  - unfold remove_image.
    apply listed_first; [exact list_images_commands |].
    intros u. repeat grows_step.
  - intros op Hop. cbn [In] in Hop.
    repeat (destruct Hop as [<- | Hop]); try contradiction;
      [ unfold start_container | unfold stop_container
      | unfold restart_container | unfold remove_container
      | unfold view_logs ];
      (apply listed_first; [exact (list_containers_commands true) |]);
      intros u; repeat grows_step.
  - unfold exec_container.
    apply listed_first; [exact (list_containers_commands false) |].
    intros u. repeat grows_step.
Qed.

(** X14.  Start, stop and restart print their success line when the
    engine call exits with status zero and has printed some text; the line
    names the container by the identifier the operator typed, stripped, not
    by what the engine printed. *)
Theorem lifecycle_success_reported :
  succeeds start_container
    (nl ++ py "▶️ INICIAR CONTENEDOR")
    (py "ID o nombre del contenedor a iniciar: ")
    (fun id => [docker; py "start"; id])
    (fun id => py "✅ Contenedor " ++ id ++ py " iniciado")
  /\ succeeds stop_container
       (nl ++ py "⏹️ DETENER CONTENEDOR")
       (py "ID o nombre del contenedor a detener: ")
       (fun id => [docker; py "stop"; id])
       (fun id => py "✅ Contenedor " ++ id ++ py " detenido")
  /\ succeeds restart_container
       (nl ++ py "🔄 REINICIAR CONTENEDOR")
       (py "ID o nombre del contenedor a reiniciar: ")
       (fun id => [docker; py "restart"; id])
       (fun id => py "✅ Contenedor " ++ id ++ py " reiniciado").
Proof.
  split; [| split];
    intros st st1 raw rest c w' Hpre Hin Hraw Hl Hc Hd Hz Hout;
    [ unfold start_container | unfold stop_container
    | unfold restart_container ];
    rewrite (bind_Ret _ _ _ _ _ Hpre); steps Hin; rewrite Hraw; cbn [negb];
    (erewrite bind_Ret
       by (apply run_command_ok; cbn [world]; eassumption));
    cbn [truthy]; rewrite Hout; printed.
Qed.

(* ===================================================================== *)
(** * Further properties: the session *)
(* ===================================================================== *)

Lemma caught_print s : sat (print s) caught_by_run.
Proof. intros st e H. discriminate H. Qed.

Lemma caught_input p : sat (input p) caught_by_run.
Proof.
  intros st e. unfold input.
  destruct (stdin st) as [| [line |] rest]; cbn [fst];
    intros H; try discriminate H; injection H as <-; reflexivity.
Qed.

Lemma caught_interactive cmd : sat (run_command_interactive cmd) caught_by_run.
Proof.
  intros st e.
  destruct (run_command_interactive_cases cmd st)
    as [(-> & E) | [(prog & args & k & -> & _ & E)
                   | (prog & args & c & w' & -> & _ & _ & E)]];
    rewrite E; cbn [fst]; intros H; try discriminate H;
    injection H as <-; reflexivity.
Qed.

Lemma caught_report cmd (ok : option str -> str) err :
  failure_line err = true ->
  sat (result <- run_command cmd ;;
       if truthy result then print (ok result) else print err)
      caught_by_run.
Proof.
  intros _ st e. unfold bind.
  destruct (run_command_cases cmd st)
    as [(-> & E) | [(prog & args & k & -> & _ & E)
                   | [(prog & args & c & w' & -> & _ & _ & _ & _ & E)
                     | [(prog & args & c & w' & -> & _ & _ & _ & _ & E)
                       | (prog & args & c & w' & -> & _ & _ & _ & E)]]]];
    rewrite E; try destruct (truthy (Some (strip (stdout c))));
    cbn [truthy print fst]; intros H; try discriminate H;
    injection H as <-; reflexivity.
Qed.

Lemma caught_seq A B (st : St) (a : A) st1 (r : Res B) st2 :
  caught_by_run st (Ret a) st1 -> caught_by_run st1 r st2 ->
  caught_by_run st r st2.
Proof. intros _ H. exact H. Qed.

Lemma caught_raise A B (st : St) e st1 :
  @caught_by_run A st (Raise e) st1 -> @caught_by_run B st (Raise e) st1.
Proof. intros H e' He. injection He as <-. apply H. reflexivity. Qed.

(** No pass through a menu raises what [run] cannot catch. *)
Lemma iteration_caught m : sat (iteration m) caught_by_run.
Proof.
  apply (sat_iteration (fun A => @caught_by_run A)).
  - intros A a st e H. discriminate H.
  - exact caught_seq.
  - exact caught_raise.
  - exact caught_print.
  - exact caught_input.
  - exact caught_report.
  - exact caught_interactive.
Qed.

Lemma session_caught fuel m st e st' :
  session fuel m st = Some (Raise e, st') -> catchable e = true.
Proof.
  revert m st. induction fuel as [| fuel IH]; intros m st H.
  - destruct m; discriminate H.
  - destruct m; try discriminate H; cbn [session] in H;
      match type of H with
      | context [iteration ?m st] =>
          pose proof (iteration_caught m st) as Hc;
          destruct (iteration m st) as [[m' | e'] st1]; cbn [fst snd] in Hc;
          [ exact (IH _ _ H)
          | injection H as <- <-; apply Hc; reflexivity ]
      end.
Qed.

(** Splits a run of the model in a hypothesis into its cases. *)
Ltac cases_of H :=
  unfold bind in H;
  repeat (match type of H with
          | context [match ?x with _ => _ end] => destruct x eqn:?
          end;
          try discriminate H).

(** A sub-menu leads to itself or back to the main menu, and the main menu
    leads to [Exit] only by way of the farewell. *)
Lemma iteration_exit m st st' :
  iteration m st = (Ret Exit, st') ->
  m = Exit \/ (m = MainMenu /\ exists evs, events st' = evs ++ [Printed goodbye]).
Proof.
  destruct m; cbn [iteration]; intros H.
  - right. split; [reflexivity |].
    unfold main_menu in H. cases_of H.
    injection H as <-.
    match goal with
    | E : print _ ?s = (_, ?s') |- _ =>
        unfold print in E; injection E as _ <-; exists (events s)
    end.
    reflexivity.
  - exfalso. unfold handle_image_menu in H. cases_of H.
  - exfalso. unfold handle_container_menu in H. cases_of H.
  - exfalso. unfold handle_system_menu in H. cases_of H.
  - left. reflexivity.
Qed.

Lemma session_goodbye fuel m st st' :
  m <> Exit ->
  session fuel m st = Some (Ret tt, st') ->
  exists evs, events st' = evs ++ [Printed goodbye].
Proof.
  revert m st. induction fuel as [| fuel IH]; intros m st Hm H.
  - destruct m; [discriminate H .. | contradiction].
  - assert (Hs : match iteration m st with
                 | (Ret m', st1) => session fuel m' st1
                 | (Raise e, st1) => Some (Raise e, st1)
                 end = Some (Ret tt, st'))
      by (destruct m; [exact H .. | contradiction]).
    destruct (iteration m st) as [[m' | e] st1] eqn:Hit; [| discriminate Hs].
    destruct m'; try (eapply IH; [| exact Hs]; discriminate).
    destruct fuel; cbn [session] in Hs; injection Hs as <-;
      (destruct (iteration_exit _ _ _ Hit) as [-> | (_ & Hevs)];
       [contradiction | exact Hevs]).
Qed.

(** X7.  [run] contains every fault.  Given one unit of fuel more than the
    operator has keys to press, it returns normally, whatever is typed and
    whatever the world does, and the last thing it has printed is one of
    three lines: the farewell of option 4, the line for an interrupt, or
    the "Error inesperado" line for any other exception (the end of the
    operator's input among them). *)
Theorem run_always_closes st :
  exists st' evs line,
    run (S (length (stdin st))) st = Some (Ret tt, st')
    /\ events st' = evs ++ [Printed line]
    /\ (line = goodbye \/ line = interrupted
        \/ exists e, is_Exception e = true /\ line = unexpected e).
Proof.
  destruct (session_ends (S (length (stdin st))) MainMenu st)
    as (r & st1 & Hs); [lia |].
  unfold run. rewrite Hs. destruct r as [[] | e].
  - assert (Hm : MainMenu <> Exit) by discriminate.
    destruct (session_goodbye _ _ _ _ Hm Hs) as (evs & Hevs).
    exists st1, evs, goodbye.
    split; [reflexivity | split; [exact Hevs | left; reflexivity]].
  - pose proof (session_caught _ _ _ _ _ Hs) as Hc.
    assert (Hlog : forall line,
               events (log (Printed line) st1) = events st1 ++ [Printed line])
      by reflexivity.
    destruct e; cbn [catchable is_Exception] in Hc; try discriminate Hc.
    + exists (log (Printed (unexpected (CalledProcessError code output err))) st1),
        (events st1), (unexpected (CalledProcessError code output err)).
      split; [reflexivity | split; [apply Hlog |]].
      right. right. eexists. split; [| reflexivity]. reflexivity.
    + exists (log (Printed (unexpected (OSError k))) st1),
        (events st1), (unexpected (OSError k)).
      split; [reflexivity | split; [apply Hlog |]].
      right. right. eexists. split; [| reflexivity]. reflexivity.
    + exists (log (Printed (unexpected UnicodeDecodeError)) st1),
        (events st1), (unexpected UnicodeDecodeError).
      split; [reflexivity | split; [apply Hlog |]].
      right. right. eexists. split; [| reflexivity]. reflexivity.
    + exists (log (Printed (unexpected IndexError)) st1),
        (events st1), (unexpected IndexError).
      split; [reflexivity | split; [apply Hlog |]].
      right. right. eexists. split; [| reflexivity]. reflexivity.
    + exists (log (Printed (unexpected EOFError)) st1),
        (events st1), (unexpected EOFError).
      split; [reflexivity | split; [apply Hlog |]].
      right. right. eexists. split; [| reflexivity]. reflexivity.
    + exists (log (Printed interrupted) st1), (events st1), interrupted.
      split; [reflexivity | split; [apply Hlog |]].
      right. left. reflexivity.
Qed.

Lemma main_menu_selection st raw rest :
  stdin st = Line raw :: rest ->
  iteration MainMenu st =
    (let choice := strip raw in
     if eqb_str choice (py "1") then ret ImageMenu
     else if eqb_str choice (py "2") then ret ContainerMenu
     else if eqb_str choice (py "3") then ret SystemMenu
     else if eqb_str choice (py "4")
     then print (nl ++ py "👋 ¡Gracias por usar Docker Management CLI!") ;;
          ret Exit
     else print invalid_option ;; _ <- input continue_prompt ;; ret MainMenu)
      {| stdin := rest;
         events := events (snd (render MainMenu st)) ++ [Prompted select_prompt];
         world := world st |}.
Proof.
  intros Hin. cbn [iteration]. unfold main_menu. rewrite <- bind_assoc.
  exact (selection_read MainMenu _ st raw rest Hin).
Qed.

(** X8.  Navigation is structural.  The codes 1, 2 and 3 of the main menu
    and the last code of each sub-menu change menu and do nothing else:
    after the menu text the log gains the selection prompt only, no engine
    call is made, the world is untouched and there is no pause.  Code 4 of
    the main menu prints the farewell and leaves for [Exit]. *)
Theorem navigation_is_structural st raw rest :
  stdin st = Line raw :: rest ->
  (forall m m',
      In (strip raw, m') (navigation m) ->
      iteration m st =
        (Ret m',
         {| stdin := rest;
            events := events (snd (render m st)) ++ [Prompted select_prompt];
            world := world st |}))
  /\ (strip raw = py "4" ->
      iteration MainMenu st =
        (Ret Exit,
         {| stdin := rest;
            events := events (snd (render MainMenu st))
                      ++ [Prompted select_prompt; Printed goodbye];
            world := world st |})).
Proof.
  intros Hin. split.
  - intros m m' Hnav.
    destruct m; cbn [navigation In] in Hnav;
      repeat (destruct Hnav as [Hnav | Hnav];
              [injection Hnav as Hraw <- |]);
      try contradiction;
      [ rewrite (main_menu_selection st raw rest Hin) ..
      | cbn [iteration]; unfold handle_image_menu;
        rewrite (selection_read ImageMenu _ st raw rest Hin)
      | cbn [iteration]; unfold handle_container_menu;
        rewrite (selection_read ContainerMenu _ st raw rest Hin)
      | cbn [iteration]; unfold handle_system_menu;
        rewrite (selection_read SystemMenu _ st raw rest Hin) ];
      cbv zeta; rewrite <- Hraw; literal_tests; reflexivity.
  - intros Hraw. rewrite (main_menu_selection st raw rest Hin).
    cbv zeta. rewrite Hraw. literal_tests. rewrite print_bind.
    unfold ret, log. cbn [stdin events world]. rewrite <- app_assoc.
    reflexivity.
Qed.

(** X9.  The menus dispatch as their tables say.  A selection that is the
    code of an operation in the current sub-menu performs that operation,
    then pauses for Enter, and stays in the same menu; if the operation or
    the pause raises, so does the pass. *)
Theorem menu_dispatch m st raw rest op :
  stdin st = Line raw :: rest ->
  In (strip raw, op) (leaves m) ->
  iteration m st =
    (perform op ;; _ <- input continue_prompt ;; ret m)
      {| stdin := rest;
         events := events (snd (render m st)) ++ [Prompted select_prompt];
         world := world st |}.
Proof.
  intros Hin Hleaf.
  destruct m; cbn [leaves In] in Hleaf;
    repeat (destruct Hleaf as [Hleaf | Hleaf];
            [injection Hleaf as Hraw <- |]);
    try contradiction;
    cbn [iteration];
    unfold handle_image_menu, handle_container_menu, handle_system_menu;
    match goal with
    | |- (render ?m ;; _) st = _ =>
        rewrite (selection_read m _ st raw rest Hin)
    | |- (?show ;; _) st = (_ ;; _ ;; ret ?m) _ =>
        rewrite (selection_read m _ st raw rest Hin)
    end;
    cbv zeta; rewrite <- Hraw; literal_tests; rewrite bind_assoc;
    reflexivity.
Qed.

Lemma selection_cut {B} m (k : str -> M B) st :
  (forall rest,
      stdin st = Interrupt :: rest ->
      (render m ;; raw <- input select_prompt ;; k raw) st =
        (Raise KeyboardInterrupt,
         {| stdin := rest;
            events := events (snd (render m st)) ++ [Prompted select_prompt];
            world := world st |}))
  /\ (stdin st = [] ->
      (render m ;; raw <- input select_prompt ;; k raw) st =
        (Raise EOFError,
         {| stdin := [];
            events := events (snd (render m st)) ++ [Prompted select_prompt];
            world := world st |})).
Proof.
  destruct (render_prints m st) as (Hret & Hkeys & Hworld & _).
  assert (Hshown : render m st = (Ret tt, snd (render m st)))
    by (rewrite <- Hret; apply surjective_pairing).
  split.
  - intros rest Hin. rewrite Hin in Hkeys. rewrite <- Hworld.
    rewrite (bind_Ret _ _ _ _ _ Hshown). unfold bind, input.
    rewrite Hkeys. reflexivity.
  - intros Hin. rewrite Hin in Hkeys. rewrite <- Hworld.
    rewrite (bind_Ret _ _ _ _ _ Hshown). unfold bind, input, log.
    rewrite Hkeys. reflexivity.
Qed.

(** X15.  A session cut short at the main menu.  If the operator
    interrupts at the selection prompt, [run] prints the line for an
    interrupt and returns; if the operator's input has ended there, [run]
    prints the "Error inesperado" line with the end-of-file error and
    returns.  In both cases no engine call is made. *)
Theorem session_cut_short fuel st :
  (forall rest,
      stdin st = Interrupt :: rest ->
      run (S fuel) st =
        Some (Ret tt,
              {| stdin := rest;
                 events := events (snd (render MainMenu st))
                           ++ [Prompted select_prompt; Printed interrupted];
                 world := world st |}))
  /\ (stdin st = [] ->
      run (S fuel) st =
        Some (Ret tt,
              {| stdin := [];
                 events := events (snd (render MainMenu st))
                           ++ [Prompted select_prompt;
                               Printed (unexpected EOFError)];
                 world := world st |})).
Proof.
  split.
  - intros rest Hin. unfold run. cbn [session iteration]. unfold main_menu.
    rewrite <- bind_assoc.
    rewrite (proj1 (selection_cut MainMenu _ st) rest Hin).
    unfold print, log, interrupted. cbn [stdin events world].
    rewrite <- app_assoc. reflexivity.
  - intros Hin. unfold run. cbn [session iteration]. unfold main_menu.
    rewrite <- bind_assoc.
    rewrite (proj2 (selection_cut MainMenu _ st) Hin).
    cbn [is_Exception]. unfold print, log, unexpected.
    cbn [stdin events world]. rewrite <- app_assoc. reflexivity.
Qed.

End Engine.

(* ===================================================================== *)
(** * The model on the sample worlds *)
(* ===================================================================== *)

Example py_ascii : py "rm" = [114%N; 109%N].
Proof. reflexivity. Qed.

Example py_cross : py "❌ " = [10060%N; 32%N].
Proof. reflexivity. Qed.

Example strip_both_ends : strip (py "  web1 " ++ nl) = py "web1".
Proof. reflexivity. Qed.

Example strip_no_break_space : strip [160%N; 8195%N] = [].
Proof. reflexivity. Qed.

Example proceed_upper : proceed (py " S ") = true.
Proof. reflexivity. Qed.

Example proceed_default : proceed [] = false.
Proof. reflexivity. Qed.

Example proceed_word : proceed (py "si") = false.
Proof. reflexivity. Qed.

(** A stop of a container the engine does not know: the engine's complaint
    is shown, then the operation's own failure line. *)
Example stop_unknown_container :
  commands
    (events
       (snd (stop_container unit (toy_lookup true) (toy_child failing)
               (typing [Line (py "web9")])))) =
    [(true, list_containers_cmd true); (true, [docker; py "stop"; py "web9"])]
  /\ fst (stop_container unit (toy_lookup true) (toy_child failing)
            (typing [Line (py "web9")])) = Ret tt.
Proof. vm_compute. split; reflexivity. Qed.

(** Main menu, container menu, back, exit: the session ends by itself. *)
Example session_walk :
  exists st',
    run unit (toy_lookup true) (toy_child listing) (toy_exists true)
        toy_describe 4
        (typing [Line (py "2"); Line (py "10"); Line (py "4")]) =
      Some (Ret tt, st')
    /\ stdin st' = [] /\ commands (events st') = [].
Proof. eexists. split; [vm_compute; reflexivity | split; reflexivity]. Qed.



(** C2, on a machine without the engine. *)
Lemma missing_binary_faults_witness :
  toy_lookup false tt docker = Some FileNotFoundError
  /\ run_command unit (toy_lookup false) (toy_child listing)
       [docker; py "images"] (typing []) =
     (Raise (OSError FileNotFoundError),
      {| stdin := [];
         events := [Subprocess true [docker; py "images"]
                      (SpawnFailed FileNotFoundError)];
         world := tt |})
  /\ run_command_interactive unit (toy_lookup false) (toy_child listing)
       [docker; py "images"] (typing []) =
     (Raise (OSError FileNotFoundError),
      {| stdin := [];
         events := [Subprocess false [docker; py "images"]
                      (SpawnFailed FileNotFoundError)];
         world := tt |}).
Proof.
  assert (Hl : toy_lookup false tt docker = Some FileNotFoundError)
    by reflexivity.
  split; [exact Hl |].
  exact (missing_binary_faults unit (toy_lookup false) (toy_child listing)
           docker [py "images"] (typing []) FileNotFoundError Hl).
Defined.

(** C3 as the spec words it fails: the operator answers [n] at the gate of
    remove-container, and the executor has been invoked all the same, once,
    for the listing that precedes the prompt. *)
Lemma abort_still_runs_listing :
  proceed (py "n") = false
  /\ fst (remove_container unit (toy_lookup true) (toy_child listing)
            (typing [Line (py "web1"); Line (py "n")])) = Ret tt
  /\ commands
       (events
          (snd (remove_container unit (toy_lookup true) (toy_child listing)
                  (typing [Line (py "web1"); Line (py "n")])))) =
     [(true, list_containers_cmd true)].
Proof. vm_compute. repeat split. Qed.

(** C3 as amended, for system prune answered with an empty line and for
    remove-container of [web1] answered [n]. *)
Lemma gate_guards_destructive_command_witness :
  (stdin (typing [Line []]) = [Line []]
   /\ proceed [] = false
   /\ system_cleanup unit (toy_lookup true) (toy_child listing)
        (typing [Line []]) =
      (Ret tt,
       {| stdin := [];
          events := events (typing [Line []])
                    ++ [Printed (nl ++ py "🧹 LIMPIEZA DEL SISTEMA");
                        Printed (py "Esto eliminará:");
                        Printed (py "- Contenedores detenidos");
                        Printed (py "- Redes no utilizadas");
                        Printed (py "- Imágenes sin referencia");
                        Printed (py "- Caché de construcción");
                        Prompted (nl ++ py "¿Continuar con la limpieza? (s/N): ")];
          world := world (typing [Line []]) |}))
  /\ (list_containers unit (toy_lookup true) (toy_child listing) true
        (typing [Line (py "web1"); Line (py "n")]) =
      (Ret tt,
       snd (list_containers unit (toy_lookup true) (toy_child listing) true
              (typing [Line (py "web1"); Line (py "n")])))
      /\ stdin (snd (list_containers unit (toy_lookup true) (toy_child listing)
                       true (typing [Line (py "web1"); Line (py "n")]))) =
         [Line (py "web1"); Line (py "n")]
      /\ nonempty (strip (py "web1")) = true
      /\ proceed (py "n") = false
      /\ remove_container unit (toy_lookup true) (toy_child listing)
           (typing [Line (py "web1"); Line (py "n")]) =
         (Ret tt,
          {| stdin := [];
             events :=
               events (snd (list_containers unit (toy_lookup true)
                              (toy_child listing) true
                              (typing [Line (py "web1"); Line (py "n")])))
               ++ [Printed (nl ++ py "🗑️ ELIMINAR CONTENEDOR");
                   Prompted (py "ID o nombre del contenedor a eliminar: ");
                   Prompted (py "¿Estás seguro de eliminar el contenedor "
                             ++ strip (py "web1") ++ py "? (s/N): ")];
             world :=
               world (snd (list_containers unit (toy_lookup true)
                             (toy_child listing) true
                             (typing [Line (py "web1"); Line (py "n")]))) |})).
Proof.
  pose proof (gate_guards_destructive_command unit (toy_lookup true)
                (toy_child listing)) as (Hprune & _ & Hremove).
  split.
  - assert (Hin : stdin (typing [Line []]) = [Line []]) by reflexivity.
    assert (Hno : proceed [] = false) by reflexivity.
    split; [exact Hin | split; [exact Hno |]].
    exact (Hprune (typing [Line []]) [] [] Hin Hno).
  - assert (Hpre : list_containers unit (toy_lookup true) (toy_child listing)
                     true (typing [Line (py "web1"); Line (py "n")]) =
                   (Ret tt,
                    snd (list_containers unit (toy_lookup true)
                           (toy_child listing) true
                           (typing [Line (py "web1"); Line (py "n")]))))
      by (vm_compute; reflexivity).
    assert (Hin : stdin (snd (list_containers unit (toy_lookup true)
                                (toy_child listing) true
                                (typing [Line (py "web1"); Line (py "n")]))) =
                  [Line (py "web1"); Line (py "n")])
      by (vm_compute; reflexivity).
    assert (Hraw : nonempty (strip (py "web1")) = true) by reflexivity.
    assert (Hno : proceed (py "n") = false) by reflexivity.
    split; [exact Hpre | split; [exact Hin | split; [exact Hraw |
      split; [exact Hno |]]]].
    exact (Hremove _ _ (py "web1") (py "n") [] Hpre Hin Hraw Hno).
Defined.

(** C4 as the spec words it fails: on a machine without the engine, pull
    raises the operating system's error to its caller; it prints no failure
    line of its own and returns nothing. *)
Lemma pull_image_raises_spawn_fault :
  fst (pull_image unit (toy_lookup false) (toy_child listing)
         (typing [Line (py "nginx:latest")])) =
    Raise (OSError FileNotFoundError)
  /\ events
       (snd (pull_image unit (toy_lookup false) (toy_child listing)
               (typing [Line (py "nginx:latest")]))) =
     [Printed (nl ++ py "⬇️ DESCARGAR IMAGEN");
      Prompted (py "Ingresa el nombre de la imagen (ej: nginx:latest): ");
      Printed (py "Descargando imagen: nginx:latest...");
      Subprocess false [docker; py "pull"; py "nginx:latest"]
        (SpawnFailed FileNotFoundError)].
Proof. vm_compute. split; reflexivity. Qed.

(** C4 as amended: image menu, pull, on a machine without the engine; the
    fault passes through the pass of the image menu, comes out of the
    loops, and [run] reports it. *)
Lemma spawn_fault_reaches_session_witness :
  passes unit (toy_lookup false) (toy_child listing) (toy_exists true) 1
    MainMenu
    (typing [Line (py "1"); Line (py "2"); Line (py "nginx:latest")]) =
    Some (ImageMenu,
          {| stdin := [Line (py "2"); Line (py "nginx:latest")];
             events :=
               events
                 (snd (render unit MainMenu
                         (typing [Line (py "1"); Line (py "2");
                                  Line (py "nginx:latest")])))
               ++ [Prompted select_prompt];
             world := tt |})
  /\ In (strip (py "2"), PullImage) (leaves ImageMenu)
  /\ 1 < 2
  /\ run unit (toy_lookup false) (toy_child listing) (toy_exists true)
       toy_describe 2
       (typing [Line (py "1"); Line (py "2"); Line (py "nginx:latest")]) =
     Some (Ret tt,
           log unit
             (Printed (nl ++ py "❌ Error inesperado: "
                       ++ toy_describe (OSError FileNotFoundError)))
             (snd (pull_image unit (toy_lookup false) (toy_child listing)
                     {| stdin := [Line (py "nginx:latest")];
                        events :=
                          events
                            (snd (render unit ImageMenu
                                    {| stdin := [Line (py "2");
                                                 Line (py "nginx:latest")];
                                       events :=
                                         events
                                           (snd (render unit MainMenu
                                                   (typing [Line (py "1");
                                                            Line (py "2");
                                                            Line (py "nginx:latest")])))
                                         ++ [Prompted select_prompt];
                                       world := tt |}))
                          ++ [Prompted select_prompt];
                        world := tt |}))).
Proof.
  pose proof (spawn_fault_reaches_session unit (toy_lookup false)
                (toy_child listing) (toy_exists true) toy_describe)
    as (_ & Hpass & Hrun).
  assert (Hp : passes unit (toy_lookup false) (toy_child listing)
                 (toy_exists true) 1 MainMenu
                 (typing [Line (py "1"); Line (py "2");
                          Line (py "nginx:latest")]) =
               Some (ImageMenu,
                     {| stdin := [Line (py "2"); Line (py "nginx:latest")];
                        events :=
                          events
                            (snd (render unit MainMenu
                                    (typing [Line (py "1"); Line (py "2");
                                             Line (py "nginx:latest")])))
                          ++ [Prompted select_prompt];
                        world := tt |}))
    by (vm_compute; reflexivity).
  assert (Hleaf : In (strip (py "2"), PullImage) (leaves ImageMenu))
    by (right; left; reflexivity).
  assert (Hfuel : 1 < 2) by lia.
  split; [exact Hp | split; [exact Hleaf | split; [exact Hfuel |]]].
  refine (Hrun 1 2 _ ImageMenu _ FileNotFoundError _ Hp _ Hfuel).
  refine (Hpass ImageMenu _ (py "2") [Line (py "nginx:latest")] PullImage
            (OSError FileNotFoundError) _ _ Hleaf _);
    vm_compute; reflexivity.
Defined.

(** The scenario of C4 evaluated: the one line the operator is shown. *)
Example missing_engine_in_session :
  exists st',
    run unit (toy_lookup false) (toy_child listing) (toy_exists true)
        toy_describe 2
        (typing [Line (py "1"); Line (py "2"); Line (py "nginx:latest")]) =
      Some (Ret tt, st')
    /\ last (events st') (Printed []) =
       Printed (nl ++ py "❌ Error inesperado: [Errno 2] No such file or directory: 'docker'").
Proof. eexists. split; [vm_compute; reflexivity | vm_compute; reflexivity]. Qed.



(** The scenario of C5 evaluated: listing, then [docker rm -f web1]. *)
Example remove_web1 :
  commands
    (events
       (snd (remove_container unit (toy_lookup true) (toy_child listing)
               (typing [Line (py "web1"); Line (py "s")])))) =
    [(true, list_containers_cmd true);
     (true, [docker; py "rm"; py "-f"; py "web1"])].
Proof. vm_compute. reflexivity. Qed.

(** C6, for the image [nginx:latest] with both optional fields left
    empty. *)
Lemma run_container_command_witness :
  stdin (typing [Line (py "nginx:latest"); Line []; Line []]) =
    [Line (py "nginx:latest"); Line []; Line []]
  /\ nonempty (strip (py "nginx:latest")) = true
  /\ commands
       (events
          (snd (run_container unit (toy_lookup true) (toy_child listing)
                  (typing [Line (py "nginx:latest"); Line []; Line []])))) =
     commands (events (typing [Line (py "nginx:latest"); Line []; Line []]))
     ++ [(true, run_container_cmd (strip (py "nginx:latest")) (strip [])
                  (strip []))].
Proof.
  assert (Hin : stdin (typing [Line (py "nginx:latest"); Line []; Line []]) =
                [Line (py "nginx:latest"); Line []; Line []]) by reflexivity.
  assert (Himage : nonempty (strip (py "nginx:latest")) = true) by reflexivity.
  split; [exact Hin | split; [exact Himage |]].
  exact (proj2 (proj2 (proj2 (proj2 (proj2
           (run_container_command unit (toy_lookup true) (toy_child listing))))))
           _ (py "nginx:latest") [] [] [] Hin Himage).
Defined.

(** The scenario of C6 evaluated, and one with both fields filled in. *)
Example run_nginx :
  commands
    (events
       (snd (run_container unit (toy_lookup true) (toy_child listing)
               (typing [Line (py "nginx:latest"); Line []; Line []])))) =
    [(true, [docker; py "run"; py "-d"; py "nginx:latest"])].
Proof. vm_compute. reflexivity. Qed.

Example run_nginx_named :
  run_container_cmd (py "nginx:latest") (py "web1") (py "8080:80") =
    [docker; py "run"; py "-d"; py "--name"; py "web1"; py "-p";
     py "8080:80"; py "nginx:latest"].
Proof. vm_compute. reflexivity. Qed.

(** C7 as the spec words it fails: the identifier given to stop-container
    is blank, and the executor has been invoked all the same, once, for the
    listing that precedes the prompt. *)
Lemma blank_id_still_runs_listing :
  strip (py "   ") = []
  /\ fst (stop_container unit (toy_lookup true) (toy_child listing)
            (typing [Line (py "   ")])) = Ret tt
  /\ commands
       (events
          (snd (stop_container unit (toy_lookup true) (toy_child listing)
                  (typing [Line (py "   ")])))) =
     [(true, list_containers_cmd true)].
Proof. vm_compute. repeat split. Qed.

(** C7 as amended, for stop-container given a blank identifier and for a
    build in a directory without a Dockerfile. *)
Lemma empty_required_field_rejected_witness :
  (list_containers unit (toy_lookup true) (toy_child listing) true
     (typing [Line (py "   ")]) =
     (Ret tt,
      snd (list_containers unit (toy_lookup true) (toy_child listing) true
             (typing [Line (py "   ")])))
   /\ stdin (snd (list_containers unit (toy_lookup true) (toy_child listing)
                    true (typing [Line (py "   ")]))) = [Line (py "   ")]
   /\ strip (py "   ") = []
   /\ stop_container unit (toy_lookup true) (toy_child listing)
        (typing [Line (py "   ")]) =
      (Ret tt,
       {| stdin := [];
          events :=
            events (snd (list_containers unit (toy_lookup true)
                           (toy_child listing) true
                           (typing [Line (py "   ")])))
            ++ [Printed (nl ++ py "⏹️ DETENER CONTENEDOR");
                Prompted (py "ID o nombre del contenedor a detener: ");
                Printed (py "❌ ID de contenedor no puede estar vacío")];
          world :=
            world (snd (list_containers unit (toy_lookup true)
                          (toy_child listing) true
                          (typing [Line (py "   ")]))) |}))
  /\ (stdin (typing [Line (py "."); Line (py "app")]) =
        [Line (py "."); Line (py "app")]
      /\ toy_exists false tt (py "." ++ py "/Dockerfile") = false
      /\ build_image unit (toy_lookup true) (toy_child listing)
           (toy_exists false) (typing [Line (py "."); Line (py "app")]) =
         (Ret tt,
          {| stdin := [];
             events :=
               [Printed (nl ++ py "🔨 CONSTRUIR IMAGEN");
                Prompted (py "Ruta del directorio con Dockerfile (. para actual): ");
                Prompted (py "Nombre para la nueva imagen: ");
                Printed (py "❌ No se encontró Dockerfile en .")];
             world := tt |})).
Proof.
  pose proof (empty_required_field_rejected unit (toy_lookup true)
                (toy_child listing) (toy_exists false))
    as (_ & _ & _ & Hstop & _ & _ & _ & _ & _ & Hbuild).
  split.
  - assert (Hpre : list_containers unit (toy_lookup true) (toy_child listing)
                     true (typing [Line (py "   ")]) =
                   (Ret tt,
                    snd (list_containers unit (toy_lookup true)
                           (toy_child listing) true
                           (typing [Line (py "   ")]))))
      by (vm_compute; reflexivity).
    assert (Hin : stdin (snd (list_containers unit (toy_lookup true)
                                (toy_child listing) true
                                (typing [Line (py "   ")]))) =
                  [Line (py "   ")])
      by (vm_compute; reflexivity).
    assert (Hraw : strip (py "   ") = []) by reflexivity.
    split; [exact Hpre | split; [exact Hin | split; [exact Hraw |]]].
    exact (Hstop _ _ (py "   ") [] Hpre Hin Hraw).
  - assert (Hin : stdin (typing [Line (py "."); Line (py "app")]) =
                  [Line (py "."); Line (py "app")]) by reflexivity.
    assert (Hmissing : toy_exists false tt (py "." ++ py "/Dockerfile") = false)
      by reflexivity.
    split; [exact Hin | split; [exact Hmissing |]].
    exact (Hbuild (typing [Line (py "."); Line (py "app")]) (py ".") (py "app")
             [] Hin (or_intror Hmissing)).
Defined.

(** C8 as the spec words it fails: the engine succeeds and prints a padded
    line; the operator is shown that line without its padding, and no line
    printed is the engine's text as it was, with or without the newline
    that [print] adds. *)
Lemma listing_not_verbatim :
  returncode listing = 0%Z
  /\ fst (list_images unit (toy_lookup true) (toy_child listing) (typing []))
     = Ret tt
  /\ In (Printed (py "ID"))
        (events
           (snd (list_images unit (toy_lookup true) (toy_child listing)
                   (typing []))))
  /\ (forall s,
        In (Printed s)
           (events
              (snd (list_images unit (toy_lookup true) (toy_child listing)
                      (typing [])))) ->
        s <> stdout listing /\ s ++ nl <> stdout listing).
Proof.
  split; [reflexivity | split; [reflexivity | split]].
  - vm_compute. auto 10.
  - vm_compute. intros s H.
    repeat (destruct H as [H | H];
            [ try discriminate H; injection H as <-; split; discriminate |]).
    contradiction.
Qed.

(** C8 as amended, for that same padded line. *)
Lemma listing_printed_stripped_witness :
  toy_lookup true tt docker = None
  /\ toy_child listing tt true
       [docker; py "images"; py "--format"; images_format] = (listing, tt)
  /\ decodable listing = true
  /\ returncode listing = 0%Z
  /\ nonempty (strip (stdout listing)) = true
  /\ list_images unit (toy_lookup true) (toy_child listing) (typing []) =
     (Ret tt,
      {| stdin := [];
         events := [Printed (nl ++ py "📦 IMÁGENES DOCKER DISPONIBLES:");
                    Printed (times (py "-") 80);
                    Subprocess true
                      [docker; py "images"; py "--format"; images_format]
                      (Exited listing);
                    Printed (strip (stdout listing))];
         world := tt |}).
Proof.
  assert (Hl : toy_lookup true tt docker = None) by reflexivity.
  assert (Hc : toy_child listing tt true
                 [docker; py "images"; py "--format"; images_format] =
               (listing, tt)) by reflexivity.
  assert (Hd : decodable listing = true) by reflexivity.
  assert (Hz : returncode listing = 0%Z) by reflexivity.
  assert (Hout : nonempty (strip (stdout listing)) = true) by reflexivity.
  split; [exact Hl | split; [exact Hc | split; [exact Hd | split; [exact Hz |
    split; [exact Hout |]]]]].
  exact (proj1 (listing_printed_stripped unit (toy_lookup true)
                  (toy_child listing))
           (typing []) listing tt Hl Hc Hd Hz Hout).
Defined.

(** C9, for the selection [11] in the container menu. *)
Lemma unrecognized_option_is_noop_witness :
  ContainerMenu <> Exit
  /\ stdin (typing [Line (py "11"); Line []]) = [Line (py "11"); Line []]
  /\ ~ In (strip (py "11")) (options ContainerMenu)
  /\ iteration unit (toy_lookup true) (toy_child listing) (toy_exists true)
       ContainerMenu (typing [Line (py "11"); Line []]) =
     (Ret ContainerMenu,
      {| stdin := [];
         events :=
           events (snd (render unit ContainerMenu
                          (typing [Line (py "11"); Line []])))
           ++ [Prompted select_prompt; Printed invalid_option;
               Prompted continue_prompt];
         world := tt |})
  /\ commands
       (events (snd (render unit ContainerMenu
                       (typing [Line (py "11"); Line []])))) =
     commands (events (typing [Line (py "11"); Line []])).
Proof.
  assert (Hm : ContainerMenu <> Exit) by discriminate.
  assert (Hin : stdin (typing [Line (py "11"); Line []]) =
                [Line (py "11"); Line []]) by reflexivity.
  assert (Hnot : ~ In (strip (py "11")) (options ContainerMenu)).
  { intros H. vm_compute in H.
    repeat (destruct H as [H | H]; [discriminate H |]). exact H. }
  split; [exact Hm | split; [exact Hin | split; [exact Hnot |]]].
  exact (unrecognized_option_is_noop unit (toy_lookup true) (toy_child listing)
           (toy_exists true) ContainerMenu (typing [Line (py "11"); Line []])
           (py "11") [] [] Hm Hin Hnot).
Defined.

(** The scenario of C9 evaluated: after the menu text, three events. *)
Example container_menu_invalid :
  skipn 12
    (events
       (snd (iteration unit (toy_lookup true) (toy_child listing)
               (toy_exists true) ContainerMenu
               (typing [Line (py "x"); Line []])))) =
    [Prompted select_prompt; Printed invalid_option; Prompted continue_prompt].
Proof. vm_compute. reflexivity. Qed.

(** C10 as the spec words it fails: the child exits with status zero and
    prints only a newline, but what it wrote on stderr is not text.
    [run_command] does not return the empty string, and the listing prints
    no failure line: [UnicodeDecodeError] leaves both. *)
Lemma blank_output_still_raises :
  returncode muttering = 0%Z
  /\ strip (stdout muttering) = []
  /\ run_command unit (toy_lookup true) (toy_child muttering)
       [docker; py "images"; py "--format"; images_format] (typing []) =
     (Raise UnicodeDecodeError,
      {| stdin := [];
         events := [Subprocess true
                      [docker; py "images"; py "--format"; images_format]
                      (Exited muttering)];
         world := tt |})
  /\ list_images unit (toy_lookup true) (toy_child muttering) (typing []) =
     (Raise UnicodeDecodeError,
      {| stdin := [];
         events := [Printed (nl ++ py "📦 IMÁGENES DOCKER DISPONIBLES:");
                    Printed (times (py "-") 80);
                    Subprocess true
                      [docker; py "images"; py "--format"; images_format]
                      (Exited muttering)];
         world := tt |}).
Proof.
  split; [reflexivity | split; [reflexivity | split; reflexivity]].
Qed.

(** C10 as amended, for a stop whose child exits with status zero and
    prints only a newline, in text: the executor returns the empty string,
    and stop-container tells the operator that stopping failed. *)
Lemma silent_success_reported_witness :
  (toy_lookup true tt docker = None
   /\ toy_child silent tt true [docker; py "stop"; py "web1"] = (silent, tt)
   /\ decodable silent = true
   /\ returncode silent = 0%Z
   /\ strip (stdout silent) = []
   /\ run_command unit (toy_lookup true) (toy_child silent)
        [docker; py "stop"; py "web1"] (typing []) =
      (Ret (Some []),
       {| stdin := [];
          events := [Subprocess true [docker; py "stop"; py "web1"]
                       (Exited silent)];
          world := tt |}))
  /\ (list_containers unit (toy_lookup true) (toy_child silent) true
        (typing [Line (py "web1")]) =
      (Ret tt,
       snd (list_containers unit (toy_lookup true) (toy_child silent) true
              (typing [Line (py "web1")])))
      /\ stdin (snd (list_containers unit (toy_lookup true) (toy_child silent)
                       true (typing [Line (py "web1")]))) = [Line (py "web1")]
      /\ nonempty (strip (py "web1")) = true
      /\ stop_container unit (toy_lookup true) (toy_child silent)
           (typing [Line (py "web1")]) =
         (Ret tt,
          {| stdin := skipn (consumed silent) [];
             events :=
               events (snd (list_containers unit (toy_lookup true)
                              (toy_child silent) true
                              (typing [Line (py "web1")])))
               ++ [Printed (nl ++ py "⏹️ DETENER CONTENEDOR");
                   Prompted (py "ID o nombre del contenedor a detener: ");
                   Subprocess true [docker; py "stop"; strip (py "web1")]
                     (Exited silent);
                   Printed (py "❌ Error al detener el contenedor "
                            ++ strip (py "web1"))];
             world := tt |})).
Proof.
  pose proof (silent_success_reported unit (toy_lookup true)
                (toy_child silent) (toy_exists true))
    as (Hrun & _ & _ & _ & _ & _ & Hstop & _).
  assert (Hl : toy_lookup true tt docker = None) by reflexivity.
  assert (Hc : toy_child silent tt true [docker; py "stop"; py "web1"] =
               (silent, tt)) by reflexivity.
  assert (Hd : decodable silent = true) by reflexivity.
  assert (Hz : returncode silent = 0%Z) by reflexivity.
  assert (Hout : strip (stdout silent) = []) by reflexivity.
  split.
  - split; [exact Hl | split; [exact Hc | split; [exact Hd |
      split; [exact Hz | split; [exact Hout |]]]]].
    exact (Hrun docker [py "stop"; py "web1"] (typing []) silent tt
             Hl Hc Hd Hz Hout).
  - assert (Hpre : list_containers unit (toy_lookup true) (toy_child silent)
                     true (typing [Line (py "web1")]) =
                   (Ret tt,
                    snd (list_containers unit (toy_lookup true)
                           (toy_child silent) true
                           (typing [Line (py "web1")]))))
      by (vm_compute; reflexivity).
    assert (Hin : stdin (snd (list_containers unit (toy_lookup true)
                                (toy_child silent) true
                                (typing [Line (py "web1")]))) =
                  [Line (py "web1")]) by (vm_compute; reflexivity).
    assert (Hraw : nonempty (strip (py "web1")) = true) by reflexivity.
    split; [exact Hpre | split; [exact Hin | split; [exact Hraw |]]].
    exact (Hstop _ _ (py "web1") [] silent tt Hpre Hin Hraw Hl Hc Hd Hz Hout).
Defined.

(** A success line after a silent success is not an answer. *)
Example success_line_is_no_answer :
  answered
    [Subprocess true [docker; py "stop"; py "web1"] (Exited silent);
     Printed (py "✅ Contenedor web1 detenido")] = false.
Proof. reflexivity. Qed.

(** The scenario of C10 evaluated: the engine stopped the container, and
    the operator is told that stopping it failed. *)
Example silent_stop :
  skipn 6
    (events
       (snd (stop_container unit (toy_lookup true) (toy_child silent)
               (typing [Line (py "web1")])))) =
    [Subprocess true [docker; py "stop"; py "web1"] (Exited silent);
     Printed (py "❌ Error al detener el contenedor web1")].
Proof. vm_compute. reflexivity. Qed.

(* ===================================================================== *)
(** * The further properties on the sample worlds *)
(* ===================================================================== *)

(** X2, for a pull that exits with status 1. *)
Lemma interactive_result_is_status_witness :
  toy_lookup true tt docker = None
  /\ toy_child failing tt false [docker; py "pull"; py "nginx"] = (failing, tt)
  /\ run_command_interactive unit (toy_lookup true) (toy_child failing)
       [docker; py "pull"; py "nginx"] (typing []) =
     (Ret false,
      {| stdin := [];
         events := [Subprocess false [docker; py "pull"; py "nginx"]
                      (Exited failing)];
         world := tt |}).
Proof.
  assert (Hl : toy_lookup true tt docker = None) by reflexivity.
  assert (Hc : toy_child failing tt false [docker; py "pull"; py "nginx"]
               = (failing, tt)) by reflexivity.
  split; [exact Hl | split; [exact Hc |]].
  exact (proj1 (interactive_result_is_status unit (toy_lookup true)
                  (toy_child failing))
           docker [py "pull"; py "nginx"] (typing []) failing tt Hl Hc).
Defined.



(** X8, for the selection [2], typed with blanks around it, in the main
    menu. *)
Lemma navigation_is_structural_witness :
  stdin (typing [Line (py " 2 ")]) = [Line (py " 2 ")]
  /\ In (strip (py " 2 "), ContainerMenu) (navigation MainMenu)
  /\ iteration unit (toy_lookup true) (toy_child listing) (toy_exists true)
       MainMenu (typing [Line (py " 2 ")]) =
     (Ret ContainerMenu,
      {| stdin := [];
         events := events (snd (render unit MainMenu
                                  (typing [Line (py " 2 ")])))
                   ++ [Prompted select_prompt];
         world := tt |}).
Proof.
  assert (Hin : stdin (typing [Line (py " 2 ")]) = [Line (py " 2 ")])
    by reflexivity.
  assert (Hnav : In (strip (py " 2 "), ContainerMenu) (navigation MainMenu))
    by (right; left; reflexivity).
  split; [exact Hin | split; [exact Hnav |]].
  exact (proj1 (navigation_is_structural unit (toy_lookup true)
                  (toy_child listing) (toy_exists true)
                  (typing [Line (py " 2 ")]) (py " 2 ") [] Hin)
           MainMenu ContainerMenu Hnav).
Defined.

(** X9, for the selection [5] in the container menu: stop, pause, same
    menu. *)
Lemma menu_dispatch_witness :
  stdin (typing [Line (py "5"); Line (py "web1"); Line []]) =
    [Line (py "5"); Line (py "web1"); Line []]
  /\ In (strip (py "5"), StopContainer) (leaves ContainerMenu)
  /\ iteration unit (toy_lookup true) (toy_child listing) (toy_exists true)
       ContainerMenu (typing [Line (py "5"); Line (py "web1"); Line []]) =
     bind unit
       (perform unit (toy_lookup true) (toy_child listing) (toy_exists true)
          StopContainer)
       (fun _ => bind unit (input unit continue_prompt)
                   (fun _ => ret unit ContainerMenu))
       {| stdin := [Line (py "web1"); Line []];
          events :=
            events (snd (render unit ContainerMenu
                           (typing [Line (py "5"); Line (py "web1"); Line []])))
            ++ [Prompted select_prompt];
          world := tt |}.
Proof.
  assert (Hin : stdin (typing [Line (py "5"); Line (py "web1"); Line []]) =
                [Line (py "5"); Line (py "web1"); Line []]) by reflexivity.
  assert (Hleaf : In (strip (py "5"), StopContainer) (leaves ContainerMenu))
    by (do 4 right; left; reflexivity).
  split; [exact Hin | split; [exact Hleaf |]].
  exact (menu_dispatch unit (toy_lookup true) (toy_child listing)
           (toy_exists true) ContainerMenu
           (typing [Line (py "5"); Line (py "web1"); Line []])
           (py "5") [Line (py "web1"); Line []] StopContainer Hin Hleaf).
Defined.

(** The scenario of X9 evaluated: the pass ends in the container menu with
    every key read. *)
Example stop_from_menu :
  exists st',
    iteration unit (toy_lookup true) (toy_child listing) (toy_exists true)
      ContainerMenu (typing [Line (py "5"); Line (py "web1"); Line []]) =
      (Ret ContainerMenu, st')
    /\ stdin st' = []
    /\ commands (events st') =
       [(true, list_containers_cmd true);
        (true, [docker; py "stop"; py "web1"])].
Proof. eexists. split; [vm_compute; reflexivity | split; reflexivity]. Qed.

(** X10, for a pull that exits with status 1: the failure line. *)
Lemma interactive_outcome_reported_witness :
  stdin (typing [Line (py "nginx")]) = [Line (py "nginx")]
  /\ nonempty (strip (py "nginx")) = true
  /\ toy_lookup true (world (typing [Line (py "nginx")])) docker = None
  /\ toy_child failing (world (typing [Line (py "nginx")])) false
       [docker; py "pull"; strip (py "nginx")] = (failing, tt)
  /\ pull_image unit (toy_lookup true) (toy_child failing)
       (typing [Line (py "nginx")]) =
     (Ret tt,
      {| stdin := [];
         events :=
           [Printed (nl ++ py "⬇️ DESCARGAR IMAGEN");
            Prompted (py "Ingresa el nombre de la imagen (ej: nginx:latest): ");
            Printed (py "Descargando imagen: nginx...");
            Subprocess false [docker; py "pull"; py "nginx"] (Exited failing);
            Printed (py "❌ Error al descargar la imagen nginx")];
         world := tt |}).
Proof.
  assert (Hin : stdin (typing [Line (py "nginx")]) = [Line (py "nginx")])
    by reflexivity.
  assert (Hraw : nonempty (strip (py "nginx")) = true) by reflexivity.
  assert (Hl : toy_lookup true (world (typing [Line (py "nginx")])) docker
               = None) by reflexivity.
  assert (Hc : toy_child failing (world (typing [Line (py "nginx")])) false
                 [docker; py "pull"; strip (py "nginx")] = (failing, tt))
    by reflexivity.
  split; [exact Hin | split; [exact Hraw | split; [exact Hl |
    split; [exact Hc |]]]].
  exact (proj1 (interactive_outcome_reported unit (toy_lookup true)
                  (toy_child failing) (toy_exists true))
           (typing [Line (py "nginx")]) (py "nginx") [] failing tt
           Hin Hraw Hl Hc).
Defined.

(** X11, for a system info that exits with status 1: nothing follows the
    call. *)
Lemma interactive_result_discarded_witness :
  toy_lookup true (world (typing [])) docker = None
  /\ toy_child failing (world (typing [])) false
       [docker; py "system"; py "info"] = (failing, tt)
  /\ system_info unit (toy_lookup true) (toy_child failing) (typing []) =
     (Ret tt,
      {| stdin := [];
         events :=
           [Printed (nl ++ py "🔧 INFORMACIÓN DEL SISTEMA DOCKER:");
            Printed (times (py "-") 50);
            Subprocess false [docker; py "system"; py "info"] (Exited failing)];
         world := tt |}).
Proof.
  assert (Hl : toy_lookup true (world (typing [])) docker = None)
    by reflexivity.
  assert (Hc : toy_child failing (world (typing [])) false
                 [docker; py "system"; py "info"] = (failing, tt))
    by reflexivity.
  split; [exact Hl | split; [exact Hc |]].
  exact (proj1 (interactive_result_discarded unit (toy_lookup true)
                  (toy_child failing))
           (typing []) failing tt Hl Hc).
Defined.

(** X12, for an engine that prints a 24-character identifier. *)
Lemma run_container_shows_short_id_witness :
  stdin (typing [Line (py "nginx:latest"); Line []; Line []]) =
    [Line (py "nginx:latest"); Line []; Line []]
  /\ nonempty (strip (py "nginx:latest")) = true
  /\ toy_lookup true (world (typing [Line (py "nginx:latest"); Line []; Line []]))
       docker = None
  /\ toy_child started
       (world (typing [Line (py "nginx:latest"); Line []; Line []])) true
       (run_container_cmd (strip (py "nginx:latest")) (strip []) (strip []))
     = (started, tt)
  /\ decodable started = true
  /\ returncode started = 0%Z
  /\ nonempty (strip (stdout started)) = true
  /\ run_container unit (toy_lookup true) (toy_child started)
       (typing [Line (py "nginx:latest"); Line []; Line []]) =
     (Ret tt,
      {| stdin := [];
         events :=
           [Printed (nl ++ py "🚀 EJECUTAR CONTENEDOR");
            Prompted (py "Nombre de la imagen: ");
            Prompted (py "Nombre del contenedor (opcional): ");
            Prompted (py "Mapeo de puertos (ej: 8080:80, opcional): ");
            Subprocess true [docker; py "run"; py "-d"; py "nginx:latest"]
              (Exited started);
            Printed (py "✅ Contenedor iniciado con ID: 4f9a2c7d81b3")];
         world := tt |}).
Proof.
  assert (Hin : stdin (typing [Line (py "nginx:latest"); Line []; Line []]) =
                [Line (py "nginx:latest"); Line []; Line []]) by reflexivity.
  assert (Himage : nonempty (strip (py "nginx:latest")) = true) by reflexivity.
  assert (Hl : toy_lookup true
                 (world (typing [Line (py "nginx:latest"); Line []; Line []]))
                 docker = None) by reflexivity.
  assert (Hc : toy_child started
                 (world (typing [Line (py "nginx:latest"); Line []; Line []]))
                 true
                 (run_container_cmd (strip (py "nginx:latest")) (strip [])
                    (strip []))
               = (started, tt)) by reflexivity.
  assert (Hd : decodable started = true) by reflexivity.
  assert (Hz : returncode started = 0%Z) by reflexivity.
  assert (Hout : nonempty (strip (stdout started)) = true) by reflexivity.
  split; [exact Hin | split; [exact Himage | split; [exact Hl |
    split; [exact Hc | split; [exact Hd | split; [exact Hz |
    split; [exact Hout |]]]]]]].
  exact (proj1 (run_container_shows_short_id unit (toy_lookup true)
                  (toy_child started)
                  (typing [Line (py "nginx:latest"); Line []; Line []])
                  (py "nginx:latest") [] [] [] started tt
                  Hin Himage Hl Hc Hd Hz Hout)).
Defined.

(** X14, for a stop of [web1] that the engine answers with a line. *)
Lemma lifecycle_success_reported_witness :
  list_containers unit (toy_lookup true) (toy_child listing) true
    (typing [Line (py "web1")]) =
    (Ret tt,
     snd (list_containers unit (toy_lookup true) (toy_child listing) true
            (typing [Line (py "web1")])))
  /\ stdin (snd (list_containers unit (toy_lookup true) (toy_child listing)
                   true (typing [Line (py "web1")]))) = [Line (py "web1")]
  /\ nonempty (strip (py "web1")) = true
  /\ toy_lookup true
       (world (snd (list_containers unit (toy_lookup true) (toy_child listing)
                      true (typing [Line (py "web1")])))) docker = None
  /\ toy_child listing
       (world (snd (list_containers unit (toy_lookup true) (toy_child listing)
                      true (typing [Line (py "web1")])))) true
       [docker; py "stop"; strip (py "web1")] = (listing, tt)
  /\ decodable listing = true
  /\ returncode listing = 0%Z
  /\ nonempty (strip (stdout listing)) = true
  /\ stop_container unit (toy_lookup true) (toy_child listing)
       (typing [Line (py "web1")]) =
     (Ret tt,
      {| stdin := skipn (consumed listing) [];
         events :=
           events (snd (list_containers unit (toy_lookup true)
                          (toy_child listing) true
                          (typing [Line (py "web1")])))
           ++ [Printed (nl ++ py "⏹️ DETENER CONTENEDOR");
               Prompted (py "ID o nombre del contenedor a detener: ");
               Subprocess true [docker; py "stop"; strip (py "web1")]
                 (Exited listing);
               Printed (py "✅ Contenedor " ++ strip (py "web1")
                        ++ py " detenido")];
         world := tt |}).
Proof.
  assert (Hpre : list_containers unit (toy_lookup true) (toy_child listing)
                   true (typing [Line (py "web1")]) =
                 (Ret tt,
                  snd (list_containers unit (toy_lookup true)
                         (toy_child listing) true
                         (typing [Line (py "web1")]))))
    by (vm_compute; reflexivity).
  assert (Hin : stdin (snd (list_containers unit (toy_lookup true)
                              (toy_child listing) true
                              (typing [Line (py "web1")]))) =
                [Line (py "web1")]) by (vm_compute; reflexivity).
  assert (Hraw : nonempty (strip (py "web1")) = true) by reflexivity.
  assert (Hl : toy_lookup true
                 (world (snd (list_containers unit (toy_lookup true)
                                (toy_child listing) true
                                (typing [Line (py "web1")])))) docker = None)
    by reflexivity.
  assert (Hc : toy_child listing
                 (world (snd (list_containers unit (toy_lookup true)
                                (toy_child listing) true
                                (typing [Line (py "web1")])))) true
                 [docker; py "stop"; strip (py "web1")] = (listing, tt))
    by (vm_compute; reflexivity).
  assert (Hd : decodable listing = true) by reflexivity.
  assert (Hz : returncode listing = 0%Z) by reflexivity.
  assert (Hout : nonempty (strip (stdout listing)) = true) by reflexivity.
  split; [exact Hpre | split; [exact Hin | split; [exact Hraw |
    split; [exact Hl | split; [exact Hc | split; [exact Hd |
    split; [exact Hz | split; [exact Hout |]]]]]]]].
  exact (proj1 (proj2 (lifecycle_success_reported unit (toy_lookup true)
                         (toy_child listing)))
           _ _ (py "web1") [] listing tt Hpre Hin Hraw Hl Hc Hd Hz Hout).
Defined.

(** X15, for an interrupt as the first key. *)
Lemma session_cut_short_witness :
  stdin (typing [Interrupt]) = [Interrupt]
  /\ run unit (toy_lookup true) (toy_child listing) (toy_exists true)
       toy_describe 1 (typing [Interrupt]) =
     Some (Ret tt,
           {| stdin := [];
              events := events (snd (render unit MainMenu (typing [Interrupt])))
                        ++ [Prompted select_prompt; Printed interrupted];
              world := tt |}).
Proof.
  assert (Hin : stdin (typing [Interrupt]) = [Interrupt]) by reflexivity.
  split; [exact Hin |].
  exact (proj1 (session_cut_short unit (toy_lookup true) (toy_child listing)
                  (toy_exists true) toy_describe 0 (typing [Interrupt]))
           [] Hin).
Defined.

(** A listing whose engine complains in bytes that are not text, from the
    container menu: the session closes with the decoding error as its last
    line, and neither the executor's line nor the listing's failure line
    has been printed. *)
Example garbled_listing_in_session :
  exists st',
    run unit (toy_lookup true) (toy_child garbled) (toy_exists true)
        toy_describe 3 (typing [Line (py "2"); Line (py "2")]) =
      Some (Ret tt, st')
    /\ skipn 25 (events st') =
       [Subprocess true (list_containers_cmd true) (Exited garbled);
        Printed (nl ++ py "❌ Error inesperado: 'utf-8' codec can't decode byte 0xff in position 0: invalid start byte")].
Proof.
  eexists. split; [vm_compute; reflexivity | vm_compute; reflexivity].
Qed.

(** The end of the operator's input in the middle of an operation: the
    session closes with the end-of-file error as its last line. *)
Example input_ends_in_operation :
  exists st',
    run unit (toy_lookup true) (toy_child listing) (toy_exists true)
        toy_describe 3 (typing [Line (py "2"); Line (py "5")]) =
      Some (Ret tt, st')
    /\ last (events st') (Printed []) =
       Printed (unexpected toy_describe EOFError)
    /\ commands (events st') = [(true, list_containers_cmd true)].
Proof.
  eexists. split; [vm_compute; reflexivity | split; vm_compute; reflexivity].
Qed.
